(** * hackcheck-py: the typed request/response mapping layer

    A shallow embedding of [src/hackcheck/main.py]: the search-URL builder
    [HackCheckClient._generate_search_url], the shared exchange routine
    [HackCheckClient._request] with its status-code driven error dispatch,
    and the schema layer's encode/decode contract for the declared
    dataclasses. *)

From Stdlib Require Import String Ascii List ZArith Lia Bool.
From Stdlib Require Import DecimalString DecimalPos.
Import ListNotations.
Local Open Scope string_scope.
Local Open Scope Z_scope.

(** ** Python string primitives used by the source *)

(** [str(n)] for a Python [int]: the decimal rendering used by f-strings. *)
Definition str_int (n : Z) : string := NilEmpty.string_of_int (Z.to_int n).

(** [sep.join(parts)]. *)
Definition join (sep : string) (parts : list string) : string :=
  String.concat sep parts.

(** ** Request option types *)

Definition SearchFilter := string.
Definition SearchFilterUse : SearchFilter := "use".
Definition SearchFilterIgnore : SearchFilter := "ignore".

Module SearchFilterOptions.
Record t := make { type : SearchFilter; databases : list string }.
End SearchFilterOptions.

Module SearchPaginationOptions.
Record t := make { offset : Z; limit : Z }.
End SearchPaginationOptions.

Definition SearchField := string.
Definition SearchFieldEmail : SearchField := "email".
Definition SearchFieldUsername : SearchField := "username".
Definition SearchFieldFullName : SearchField := "full_name".
Definition SearchFieldPassword : SearchField := "password".
Definition SearchFieldIPAddress : SearchField := "ip_address".
Definition SearchFieldPhoneNumber : SearchField := "phone_number".
Definition SearchFieldDomain : SearchField := "domain".
Definition SearchFieldHash : SearchField := "hash".

Module SearchOptions.
Record t := make {
  field : SearchField;
  query : string;
  filter : option SearchFilterOptions.t;
  pagination : option SearchPaginationOptions.t
}.
End SearchOptions.

Definition API_BASE_URL : string := "https://api.hackcheck.io".

(** ** URL construction *)

(** [params] after the [if options.filter:] block.  A [NamedTuple] with two
    fields is a non-empty tuple, hence truthy: the test is on presence. *)
Definition filter_params (params : list string)
    (filter : option SearchFilterOptions.t) : list string :=
  match filter with
  | Some f =>
      params ++ ["filter=" ++ SearchFilterOptions.type f;
                 "databases=" ++ join "," (SearchFilterOptions.databases f)]
  | None => params
  end.

(** [params] after the [if options.pagination:] block. *)
Definition pagination_params (params : list string)
    (pagination : option SearchPaginationOptions.t) : list string :=
  match pagination with
  | Some p =>
      params ++ ["offset=" ++ str_int (SearchPaginationOptions.offset p);
                 "limit=" ++ str_int (SearchPaginationOptions.limit p)]
  | None => params
  end.

Definition _generate_search_url (options : SearchOptions.t) : string :=
  let url := API_BASE_URL ++ "/search/" ++ SearchOptions.field options
                          ++ "/" ++ SearchOptions.query options in
  let params := [] in
  let params := filter_params params (SearchOptions.filter options) in
  let params := pagination_params params (SearchOptions.pagination options) in
  match params with
  | [] => url
  | _ :: _ => url ++ "?" ++ join "&" params
  end.

(** ** Failures

    Python exceptions that can leave the exchange routine.  The first five
    are the ones the source raises itself; the others are raised by the
    calls it makes ([int], [response.json], [from_dict], the transport). *)
Inductive exn :=
| RateLimitError (limit remaining_requests : Z)
| UnauthorizedIPAddressError (msg : string)
| InvalidAPIKeyError (msg : string)
| ServerError (msg : string)
| Exception (msg : string)
| ValueError
| JSONDecodeError
| SchemaMismatch
| TransportError (msg : string).

Inductive result (A : Type) :=
| Ok (a : A)
| Raise (e : exn).
Arguments Ok {A} a.
Arguments Raise {A} e.

Definition bind {A B : Type} (m : result A) (k : A -> result B) : result B :=
  match m with
  | Ok a => k a
  | Raise e => Raise e
  end.

Notation "x <- m ;; k" := (bind m (fun x => k))
  (at level 61, m at next level, right associativity).

Fixpoint mapM {A B : Type} (f : A -> result B) (l : list A) : result (list B) :=
  match l with
  | [] => Ok []
  | a :: l' => b <- f a ;; bs <- mapM f l' ;; Ok (b :: bs)
  end.

(** ** Text, and [int(...)] on it

    A Python [str] is the list of its code points.  Header fields arrive
    as octets and are decoded before [int] sees them; [int] on a [str]
    first maps white space and decimal digits beyond ASCII to a blank and
    to the digits 0-9 ([transform]), then reads the ASCII literal
    ([int_of_str]).  The tables are those of the Unicode Character
    Database 14.0; the interpreter's adjustable cap on the number of
    digits of a literal is left out. *)

Definition text := list N.

(** The octets of a byte string. *)
Definition octets (s : string) : list N :=
  map N_of_ascii (list_ascii_of_string s).

Definition is_ascii (bs : list N) : bool :=
  forallb (fun b => (b <? 128)%N) bs.

Definition continuation (b : N) : bool := ((128 <=? b) && (b <=? 191))%N.

(** The second octet of a three-octet sequence: no overlong forms, no
    surrogates. *)
Definition second_of_three (b1 b2 : N) : bool :=
  (if b1 =? 224 then (160 <=? b2) && (b2 <=? 191)
   else if b1 =? 237 then (128 <=? b2) && (b2 <=? 159)
   else continuation b2)%N.

(** The second octet of a four-octet sequence: no overlong forms, nothing
    beyond U+10FFFF. *)
Definition second_of_four (b1 b2 : N) : bool :=
  (if b1 =? 240 then (144 <=? b2) && (b2 <=? 191)
   else if b1 =? 244 then (128 <=? b2) && (b2 <=? 143)
   else continuation b2)%N.

(** [bytes.decode("utf-8")]: [None] stands for [UnicodeDecodeError]. *)
Fixpoint decode_utf8 (bs : list N) : option text :=
  match bs with
  | [] => Some []
  | b1 :: r1 =>
      if (b1 <? 128)%N then option_map (cons b1) (decode_utf8 r1)
      else if ((194 <=? b1) && (b1 <=? 223))%N then
        match r1 with
        | b2 :: r2 =>
            if continuation b2
            then option_map (cons ((b1 - 192) * 64 + (b2 - 128))%N)
                   (decode_utf8 r2)
            else None
        | _ => None
        end
      else if ((224 <=? b1) && (b1 <=? 239))%N then
        match r1 with
        | b2 :: b3 :: r3 =>
            if second_of_three b1 b2 && continuation b3
            then option_map
                   (cons ((b1 - 224) * 4096 + (b2 - 128) * 64
                          + (b3 - 128))%N)
                   (decode_utf8 r3)
            else None
        | _ => None
        end
      else if ((240 <=? b1) && (b1 <=? 244))%N then
        match r1 with
        | b2 :: b3 :: b4 :: r4 =>
            if second_of_four b1 b2 && continuation b3 && continuation b4
            then option_map
                   (cons ((b1 - 240) * 262144 + (b2 - 128) * 4096
                          + (b3 - 128) * 64 + (b4 - 128))%N)
                   (decode_utf8 r4)
            else None
        | _ => None
        end
      else None
  end.

(** The code points from 127 on that count as white space. *)
Definition unicode_spaces : list N :=
  [133; 160; 5760; 8192; 8193; 8194; 8195; 8196; 8197; 8198; 8199; 8200;
   8201; 8202; 8232; 8233; 8239; 8287; 12288]%N.

Definition is_unicode_space (ch : N) : bool :=
  existsb (N.eqb ch) unicode_spaces.

(** The digit zero of every script with decimal digits; the digits one to
    nine follow it. *)
Definition decimal_zeros : list N :=
  [48; 1632; 1776; 1984; 2406; 2534; 2662; 2790; 2918; 3046; 3174; 3302;
   3430; 3558; 3664; 3792; 3872; 4160; 4240; 6112; 6160; 6470; 6608; 6784;
   6800; 6992; 7088; 7232; 7248; 42528; 43216; 43264; 43472; 43504; 43600;
   44016; 65296; 66720; 68912; 69734; 69872; 69942; 70096; 70384; 70736;
   70864; 71248; 71360; 71472; 71904; 72016; 72784; 73040; 73120; 92768;
   92864; 93008; 120782; 120792; 120802; 120812; 120822; 123200; 123632;
   125264; 130032]%N.

(** The decimal value of a code point, when it is a decimal digit. *)
Definition to_decimal (ch : N) : option N :=
  match List.find (fun z => (z <=? ch) && (ch <? z + 10))%N decimal_zeros with
  | Some z => Some (ch - z)%N
  | None => None
  end.

(** What [int] makes of a [str] before reading it: a code point below 127
    is kept, white space becomes a blank and a decimal digit its ASCII
    digit; at anything else the text is cut after a [?]. *)
Fixpoint transform (t : text) : text :=
  match t with
  | [] => []
  | ch :: t' =>
      if (ch <? 127)%N then ch :: transform t'
      else if is_unicode_space ch then 32%N :: transform t'
      else
        match to_decimal ch with
        | Some d => (48 + d)%N :: transform t'
        | None => [63%N]
        end
  end.

Definition string_of_text (t : text) : string :=
  string_of_list_ascii (map ascii_of_N t).

(** The white space an ASCII literal may be surrounded by. *)
Definition is_space (c : ascii) : bool :=
  let n := nat_of_ascii c in
  (((9 <=? n) && (n <=? 13)) || (n =? 32))%nat.

Fixpoint lstrip (s : string) : string :=
  match s with
  | String c s' => if is_space c then lstrip s' else s
  | EmptyString => s
  end.

Definition reverse (s : string) : string :=
  string_of_list_ascii (rev (list_ascii_of_string s)).

Definition strip (s : string) : string := reverse (lstrip (reverse (lstrip s))).

Definition digit_of (c : ascii) : option Z :=
  let n := nat_of_ascii c in
  if ((48 <=? n) && (n <=? 57))%nat then Some (Z.of_nat n - 48) else None.

Inductive int_lex := AtStart | AfterDigit | AfterUnderscore.

(** Decimal digits with single underscores allowed between digits. *)
Fixpoint int_digits (st : int_lex) (acc : Z) (s : string) : option Z :=
  match s with
  | EmptyString =>
      match st with AfterDigit => Some acc | _ => None end
  | String c s' =>
      match digit_of c with
      | Some d => int_digits AfterDigit (10 * acc + d) s'
      | None =>
          if Ascii.eqb c "_" then
            match st with
            | AfterDigit => int_digits AfterUnderscore acc s'
            | _ => None
            end
          else None
      end
  end.

(** The ASCII literal: surrounding white space is dropped, one sign is
    allowed, and anything else than a decimal literal is a [ValueError]. *)
Definition int_of_str (s : string) : result Z :=
  let body := strip s in
  let parsed :=
    match body with
    | String "-" ds => option_map Z.opp (int_digits AtStart 0 ds)
    | String "+" ds => int_digits AtStart 0 ds
    | _ => int_digits AtStart 0 body
    end in
  match parsed with
  | Some n => Ok n
  | None => Raise ValueError
  end.

(** [int(s)] for a [str]. *)
Definition int_of_text (t : text) : result Z :=
  int_of_str (string_of_text (transform t)).

(** [int(v)] where [v] is what [headers.get(key, 0)] returned: the header
    text, or the integer default. *)
Definition int_ (v : text + Z) : result Z :=
  match v with
  | inl t => int_of_text t
  | inr n => Ok n
  end.

(** ** JSON values and the HTTP response *)

#[local] Set Warnings "-register-all".

Inductive json :=
| JNull
| JBool (b : bool)
| JInt (n : Z)
| JFloat (literal : string)
| JStr (s : string)
| JList (items : list json)
| JDict (items : list (string * json)).

(** [d.get(key)] on a decoded JSON object. *)
Fixpoint dict_get (d : list (string * json)) (key : string) : option json :=
  match d with
  | [] => None
  | (k, v) :: d' => if String.eqb k key then Some v else dict_get d' key
  end.

Definition lower_ascii (c : ascii) : ascii :=
  let n := nat_of_ascii c in
  if ((65 <=? n) && (n <=? 90))%nat then ascii_of_nat (n + 32) else c.

Fixpoint lower (s : string) : string :=
  match s with
  | EmptyString => EmptyString
  | String c s' => String (lower_ascii c) (lower s')
  end.

Module Headers.
(** Header fields in arrival order, as the octets of (name, value). *)
Definition t := list (string * string).

Inductive codec := Ascii | Utf8 | Latin1.

Definition all_fields (test : list N -> bool) (h : t) : bool :=
  forallb (fun kv => test (octets (fst kv)) && test (octets (snd kv))) h.

(** [headers.encoding]: ASCII when every name and value is ASCII, else
    UTF-8 when every one of them is well-formed UTF-8, else ISO-8859-1. *)
Definition encoding (h : t) : codec :=
  if all_fields is_ascii h then Ascii
  else if all_fields
            (fun bs => match decode_utf8 bs with Some _ => true | None => false end)
            h
  then Utf8
  else Latin1.

(** [value.decode(encoding)]; UTF-8 is only chosen when it cannot fail. *)
Definition decode (c : codec) (value : string) : text :=
  match c with
  | Ascii | Latin1 => octets value
  | Utf8 =>
      match decode_utf8 (octets value) with
      | Some t => t
      | None => octets value
      end
  end.

(** The values stored under [key], names compared without case. *)
Definition values (h : t) (key : string) : list text :=
  map (fun kv => decode (encoding h) (snd kv))
    (List.filter (fun kv => String.eqb (lower (fst kv)) (lower key)) h).

(** [", ".join(items)]. *)
Fixpoint joined (items : list text) : text :=
  match items with
  | [] => []
  | item :: rest =>
      match rest with
      | [] => item
      | _ :: _ => (item ++ [44; 32]%N ++ joined rest)%list
      end
  end.

(** [headers.get(key, default)]: repeated fields are joined with ", ". *)
Definition get (h : t) (key : string) (default : Z) : text + Z :=
  match values h key with
  | [] => inr default
  | items => inl (joined items)
  end.
End Headers.

Module Response.
Definition payload := json.

(** [body] is what the body parses to: [None] when it is not a JSON
    document. *)
Record t := make {
  status_code : Z;
  headers : Headers.t;
  body : option payload
}.

(** [response.json()]. *)
Definition json (r : t) : result payload :=
  match body r with
  | Some j => Ok j
  | None => Raise JSONDecodeError
  end.
End Response.

(** ** Schema layer: dataclasses *)

Module ErrorResponse.
Record t := make { error : string }.
End ErrorResponse.

Module CheckResponse.
Record t := make { found : bool }.
End CheckResponse.

Definition MonitorStatus := Z.
Definition MonitorStatusRunning : MonitorStatus := 0.
Definition MonitorStatusPaused : MonitorStatus := 1.
Definition MonitorStatusExpired : MonitorStatus := 2.

Module Source.
Record t := make { name : string; date : string }.
End Source.

Module SearchResult.
Record t := make {
  email : string;
  password : string;
  username : string;
  full_name : string;
  ip_address : string;
  phone_number : string;
  hash : string;
  source : Source.t
}.
End SearchResult.

Module PaginationData.
Record t := make { offset : Z; limit : Z }.
End PaginationData.

Module SearchResponsePagination.
Record t := make {
  document_count : Z;
  next : option PaginationData.t;
  prev : option PaginationData.t
}.
End SearchResponsePagination.

Module SearchResponse.
Record t := make {
  databases : Z;
  results : list SearchResult.t;
  pagination : option SearchResponsePagination.t;
  first_seen : string;
  last_seen : string
}.
End SearchResponse.

Module datetime.
(** The fields of a [datetime.datetime]; [utcoffset] is in seconds. *)
Record t := make {
  year : Z; month : Z; day : Z;
  hour : Z; minute : Z; second : Z; microsecond : Z;
  utcoffset : option Z
}.
End datetime.

Module AssetMonitor.
Record t := make {
  id : string;
  status : MonitorStatus;
  type : SearchField;
  asset : string;
  notification_email : string;
  expires_soon : bool;
  created_at : datetime.t;
  ends_at : datetime.t
}.
End AssetMonitor.

Module DomainMonitor.
Record t := make {
  id : string;
  status : MonitorStatus;
  domain : string;
  notification_email : string;
  expires_soon : bool;
  created_at : datetime.t;
  ends_at : datetime.t
}.
End DomainMonitor.

Module GetMonitorsResponse.
Record t := make {
  asset_monitors : list AssetMonitor.t;
  domain_monitors : list DomainMonitor.t
}.
End GetMonitorsResponse.

Module UpdateAssetMonitorParams.
Record t := make {
  asset_type : SearchField;
  asset : string;
  notification_email : string
}.
End UpdateAssetMonitorParams.

Module UpdateDomainMonitorParams.
Record t := make { domain : string; notification_email : string }.
End UpdateDomainMonitorParams.

(** ** Schema layer: the decode and encode contract

    [from_dict] and [to_dict] come from the serialisation library the
    dataclasses are registered with; the source holds the declarations
    only. *)

(** Modelled from the spec: the decode contract for field values, which the
    serialisation library implements and the source does not contain.  A
    value of the wrong shape is a [SchemaMismatch]. *)
Definition as_str (j : json) : result string :=
  match j with JStr s => Ok s | _ => Raise SchemaMismatch end.

(** Modelled from the spec: an integer field accepts a JSON integer only. *)
Definition as_int (j : json) : result Z :=
  match j with JInt n => Ok n | _ => Raise SchemaMismatch end.

(** Modelled from the spec: a boolean field accepts a JSON boolean only. *)
Definition as_bool (j : json) : result bool :=
  match j with JBool b => Ok b | _ => Raise SchemaMismatch end.

(** Modelled from the spec: a dataclass is decoded from a JSON object. *)
Definition as_dict (j : json) : result (list (string * json)) :=
  match j with JDict d => Ok d | _ => Raise SchemaMismatch end.

(** Modelled from the spec: a [List] field is a JSON array decoded item by
    item, in order. *)
Definition as_list {A : Type} (dec : json -> result A) (j : json)
    : result (list A) :=
  match j with JList l => mapM dec l | _ => Raise SchemaMismatch end.

(** Modelled from the spec: a declared field without [Optional] is
    required, a missing key is a [SchemaMismatch]. *)
Definition required {A : Type} (dec : json -> result A)
    (d : list (string * json)) (key : string) : result A :=
  match dict_get d key with
  | Some j => dec j
  | None => Raise SchemaMismatch
  end.

(** Modelled from the spec: an [Optional] field is absent when its key is
    missing or holds [null], and is decoded otherwise. *)
Definition optional {A : Type} (dec : json -> result A)
    (d : list (string * json)) (key : string) : result (option A) :=
  match dict_get d key with
  | None | Some JNull => Ok None
  | Some j => a <- dec j ;; Ok (Some a)
  end.

(** Modelled from the spec: [from_dict(cls, obj)] of the serialisation
    library at each dataclass of the source, every declared field read
    under its declared name and in declaration order. *)
Definition from_dict_ErrorResponse (j : json) : result ErrorResponse.t :=
  d <- as_dict j ;;
  error <- required as_str d "error" ;;
  Ok (ErrorResponse.make error).

Definition from_dict_CheckResponse (j : json) : result CheckResponse.t :=
  d <- as_dict j ;;
  found <- required as_bool d "found" ;;
  Ok (CheckResponse.make found).

Definition from_dict_Source (j : json) : result Source.t :=
  d <- as_dict j ;;
  name <- required as_str d "name" ;;
  date <- required as_str d "date" ;;
  Ok (Source.make name date).

Definition from_dict_SearchResult (j : json) : result SearchResult.t :=
  d <- as_dict j ;;
  email <- required as_str d "email" ;;
  password <- required as_str d "password" ;;
  username <- required as_str d "username" ;;
  full_name <- required as_str d "full_name" ;;
  ip_address <- required as_str d "ip_address" ;;
  phone_number <- required as_str d "phone_number" ;;
  hash <- required as_str d "hash" ;;
  source <- required from_dict_Source d "source" ;;
  Ok (SearchResult.make email password username full_name ip_address
        phone_number hash source).

Definition from_dict_PaginationData (j : json) : result PaginationData.t :=
  d <- as_dict j ;;
  offset <- required as_int d "offset" ;;
  limit <- required as_int d "limit" ;;
  Ok (PaginationData.make offset limit).

Definition from_dict_SearchResponsePagination (j : json)
    : result SearchResponsePagination.t :=
  d <- as_dict j ;;
  document_count <- required as_int d "document_count" ;;
  next <- optional from_dict_PaginationData d "next" ;;
  prev <- optional from_dict_PaginationData d "prev" ;;
  Ok (SearchResponsePagination.make document_count next prev).

Definition from_dict_SearchResponse (j : json) : result SearchResponse.t :=
  d <- as_dict j ;;
  databases <- required as_int d "databases" ;;
  results <- required (as_list from_dict_SearchResult) d "results" ;;
  pagination <- optional from_dict_SearchResponsePagination d "pagination" ;;
  first_seen <- required as_str d "first_seen" ;;
  last_seen <- required as_str d "last_seen" ;;
  Ok (SearchResponse.make databases results pagination first_seen last_seen).

(** Modelled from the spec: the encode contract, a JSON object with exactly
    the declared fields under their declared names. *)
Definition to_dict_UpdateAssetMonitorParams
    (p : UpdateAssetMonitorParams.t) : json :=
  JDict [("asset_type", JStr (UpdateAssetMonitorParams.asset_type p));
         ("asset", JStr (UpdateAssetMonitorParams.asset p));
         ("notification_email",
          JStr (UpdateAssetMonitorParams.notification_email p))].

Definition to_dict_UpdateDomainMonitorParams
    (p : UpdateDomainMonitorParams.t) : json :=
  JDict [("domain", JStr (UpdateDomainMonitorParams.domain p));
         ("notification_email",
          JStr (UpdateDomainMonitorParams.notification_email p))].

(** ** Monitors: decoding needs the ISO-8601 reader of the standard library *)

Section MonitorSchema.

(** [datetime.fromisoformat], which is not part of the source: [None]
    stands for the [ValueError] it raises on text it does not accept. *)
Variable fromisoformat : string -> option datetime.t.

(** Modelled from the spec: a [datetime] field is ISO-8601 text. *)
Definition as_datetime (j : json) : result datetime.t :=
  s <- as_str j ;;
  match fromisoformat s with
  | Some t => Ok t
  | None => Raise SchemaMismatch
  end.

Definition from_dict_AssetMonitor (j : json) : result AssetMonitor.t :=
  d <- as_dict j ;;
  id <- required as_str d "id" ;;
  status <- required as_int d "status" ;;
  type <- required as_str d "type" ;;
  asset <- required as_str d "asset" ;;
  notification_email <- required as_str d "notification_email" ;;
  expires_soon <- required as_bool d "expires_soon" ;;
  created_at <- required as_datetime d "created_at" ;;
  ends_at <- required as_datetime d "ends_at" ;;
  Ok (AssetMonitor.make id status type asset notification_email
        expires_soon created_at ends_at).

Definition from_dict_DomainMonitor (j : json) : result DomainMonitor.t :=
  d <- as_dict j ;;
  id <- required as_str d "id" ;;
  status <- required as_int d "status" ;;
  domain <- required as_str d "domain" ;;
  notification_email <- required as_str d "notification_email" ;;
  expires_soon <- required as_bool d "expires_soon" ;;
  created_at <- required as_datetime d "created_at" ;;
  ends_at <- required as_datetime d "ends_at" ;;
  Ok (DomainMonitor.make id status domain notification_email
        expires_soon created_at ends_at).

Definition from_dict_GetMonitorsResponse (j : json)
    : result GetMonitorsResponse.t :=
  d <- as_dict j ;;
  asset_monitors <-
    required (as_list from_dict_AssetMonitor) d "asset_monitors" ;;
  domain_monitors <-
    required (as_list from_dict_DomainMonitor) d "domain_monitors" ;;
  Ok (GetMonitorsResponse.make asset_monitors domain_monitors).

End MonitorSchema.

(** ** Client component *)

(** The transport handle: [self._http.request(method, url, json=body,
    headers=headers)].  It answers with a response or fails on its own. *)
Definition Transport :=
  string -> string -> option json -> Headers.t -> result Response.t.

Module HackCheckClient.
Record t := make { _api_key : string; _http : Transport }.
End HackCheckClient.

Definition auth_headers (self : HackCheckClient.t) : Headers.t :=
  [("Authorization", "Bearer " ++ HackCheckClient._api_key self)].

(** The [status_code == 401] branch. *)
Definition on_401 (response : Response.t) : result json :=
  payload <- Response.json response ;;
  data <- from_dict_ErrorResponse payload ;;
  if String.eqb (ErrorResponse.error data) "Invalid API key." then
    Raise (InvalidAPIKeyError "The provided API key is invalid.")
  else if String.eqb (ErrorResponse.error data) "Unauthorized IP address." then
    Raise (UnauthorizedIPAddressError
             "The request is coming from an unauthorized IP address.")
  else
    Raise (ServerError "An unknown server error occurred.").

(** The [status_code == 429] branch. *)
Definition on_429 (response : Response.t) : result json :=
  limit <-
    int_ (Headers.get (Response.headers response) "X-HackCheck-Limit" 0) ;;
  remaining <-
    int_ (Headers.get (Response.headers response) "X-HackCheck-Remaining" 0) ;;
  Raise (RateLimitError limit remaining).

(** The [status_code in {400, 404}] branch. *)
Definition on_400_404 (response : Response.t) : result json :=
  payload <- Response.json response ;;
  data <- from_dict_ErrorResponse payload ;;
  Raise (Exception (ErrorResponse.error data)).

Definition _request (self : HackCheckClient.t) (method url : string)
    (body : option json) : result json :=
  let headers := auth_headers self in
  response <- HackCheckClient._http self method url body headers ;;
  if Response.status_code response =? 401 then on_401 response
  else if Response.status_code response =? 429 then on_429 response
  else if (Response.status_code response =? 400)
          || (Response.status_code response =? 404) then on_400_404 response
  else Response.json response.

Definition search (self : HackCheckClient.t) (options : SearchOptions.t)
    : result SearchResponse.t :=
  let url := _generate_search_url options in
  resp <- _request self "GET" url None ;;
  from_dict_SearchResponse resp.

Section MonitorOperations.

Variable fromisoformat : string -> option datetime.t.

Definition get_monitors (self : HackCheckClient.t)
    : result GetMonitorsResponse.t :=
  let url := API_BASE_URL ++ "/monitors" in
  resp <- _request self "GET" url None ;;
  from_dict_GetMonitorsResponse fromisoformat resp.

Definition update_asset_monitor (self : HackCheckClient.t)
    (monitor_id : string) (params : UpdateAssetMonitorParams.t)
    : result AssetMonitor.t :=
  let url := API_BASE_URL ++ "/monitors/asset/" ++ monitor_id in
  resp <- _request self "PUT" url
            (Some (to_dict_UpdateAssetMonitorParams params)) ;;
  from_dict_AssetMonitor fromisoformat resp.

Definition update_domain_monitor (self : HackCheckClient.t)
    (monitor_id : string) (params : UpdateDomainMonitorParams.t)
    : result DomainMonitor.t :=
  let url := API_BASE_URL ++ "/monitors/domain/" ++ monitor_id in
  resp <- _request self "PUT" url
            (Some (to_dict_UpdateDomainMonitorParams params)) ;;
  from_dict_DomainMonitor fromisoformat resp.

End MonitorOperations.

(** ** Vocabulary of the statements *)

(** The transport answered [response] to the call [_request] makes. *)
Definition answered (self : HackCheckClient.t) (method url : string)
    (body : option json) (response : Response.t) : Prop :=
  HackCheckClient._http self method url body (auth_headers self)
    = Ok response.

(** The integer a rate-limit header stands for: 0 when no field of that
    name was sent, the integer its text denotes when one was. *)
Inductive header_value (h : Headers.t) (key : string) : Z -> Prop :=
| header_absent :
    Headers.values h key = [] -> header_value h key 0
| header_integer (n : Z) :
    Headers.values h key <> [] ->
    int_of_text (Headers.joined (Headers.values h key)) = Ok n ->
    header_value h key n.

(** The key is missing from the object, or holds [null]. *)
Definition missing_or_null (d : list (string * json)) (key : string) : Prop :=
  dict_get d key = None \/ dict_get d key = Some JNull.

(** Modelled from the spec: the reply of the service to an asset-monitor
    update read to the letter, the encoded fields with [id], [status] and
    the two timestamps added. *)
Definition encoded_plus_added (encoded : json) (id : string)
    (status : MonitorStatus) (created_at ends_at : string) : json :=
  match encoded with
  | JDict d =>
      JDict (d ++ [("id", JStr id); ("status", JInt status);
                   ("created_at", JStr created_at);
                   ("ends_at", JStr ends_at)])
  | other => other
  end.

(** Modelled from the spec: the reply of the service as an [AssetMonitor]
    object, the three values of the request body carried under the
    monitor's own field names next to the fields the service adds. *)
Definition echoed_asset_monitor (encoded : json) (id : string)
    (status : MonitorStatus) (expires_soon : bool)
    (created_at ends_at : string) : option json :=
  match encoded with
  | JDict d =>
      match dict_get d "asset_type", dict_get d "asset",
            dict_get d "notification_email" with
      | Some type, Some asset, Some notification_email =>
          Some (JDict [("id", JStr id); ("status", JInt status);
                       ("type", type); ("asset", asset);
                       ("notification_email", notification_email);
                       ("expires_soon", JBool expires_soon);
                       ("created_at", JStr created_at);
                       ("ends_at", JStr ends_at)])
      | _, _, _ => None
      end
  | _ => None
  end.

(** ** Sample values used to exercise the statements below *)

Definition sample_filter : SearchFilterOptions.t :=
  SearchFilterOptions.make SearchFilterUse ["x"; "y"].

Definition sample_pagination : SearchPaginationOptions.t :=
  SearchPaginationOptions.make 0 10.

Definition sample_search : SearchOptions.t :=
  SearchOptions.make SearchFieldEmail "a@b.com"
    (Some sample_filter) (Some sample_pagination).

Definition sample_bare_search : SearchOptions.t :=
  SearchOptions.make SearchFieldEmail "a@b.com" None None.

Definition sample_empty_filter_search : SearchOptions.t :=
  SearchOptions.make SearchFieldDomain "example.org"
    (Some (SearchFilterOptions.make SearchFilterIgnore []))
    (Some (SearchPaginationOptions.make 20 5)).

(** A transport that answers every call with [response]. *)
Definition answering (response : Response.t) : Transport :=
  fun _ _ _ _ => Ok response.

Definition sample_client (response : Response.t) : HackCheckClient.t :=
  HackCheckClient.make "sample-key" (answering response).

Definition error_payload (s : string) : json := JDict [("error", JStr s)].

Definition sample_401 (s : string) : Response.t :=
  Response.make 401 [("Content-Type", "application/json")]
    (Some (error_payload s)).

Definition sample_400 : Response.t :=
  Response.make 400 [("Content-Type", "application/json")]
    (Some (error_payload "bad field")).

Definition sample_429 : Response.t :=
  Response.make 429
    [("X-HackCheck-Limit", "100"); ("X-HackCheck-Remaining", "0")]
    (Some (error_payload "Too many requests.")).

Definition sample_429_without_body : Response.t :=
  Response.make 429
    [("X-HackCheck-Limit", "100"); ("X-HackCheck-Remaining", "0")]
    None.

Definition sample_429_bad_limit : Response.t :=
  Response.make 429
    [("X-HackCheck-Limit", "unlimited"); ("X-HackCheck-Remaining", "0")]
    None.

Definition sample_200 : Response.t :=
  Response.make 200 [("Content-Type", "application/json")]
    (Some (JDict [("found", JBool true)])).

Definition sample_search_response : list (string * json) :=
  [("databases", JInt 3); ("results", JList []);
   ("pagination", JNull);
   ("first_seen", JStr "2019-03-01"); ("last_seen", JStr "2023-11-20")].

Definition sample_response_pagination : list (string * json) :=
  [("document_count", JInt 12); ("prev", JNull)].

Definition sample_params : UpdateAssetMonitorParams.t :=
  UpdateAssetMonitorParams.make "email" "a@b.com" "n@x.com".

Definition sample_created_at : datetime.t :=
  datetime.make 2024 1 1 0 0 0 0 None.

Definition sample_ends_at : datetime.t :=
  datetime.make 2025 1 1 0 0 0 0 None.

(** Two entries of the table of [datetime.fromisoformat]. *)
Definition sample_fromisoformat (s : string) : option datetime.t :=
  if String.eqb s "2024-01-01T00:00:00" then Some sample_created_at
  else if String.eqb s "2025-01-01T00:00:00" then Some sample_ends_at
  else None.

(** Modelled from the spec: a service that answers an asset-monitor update
    with the echoed monitor, and a request without the three fields with a
    400. *)
Definition echoing_service (id : string) (status : MonitorStatus)
    (expires_soon : bool) (created_at ends_at : string) : Transport :=
  fun _ _ body _ =>
    match body with
    | Some encoded =>
        match echoed_asset_monitor encoded id status expires_soon
                created_at ends_at with
        | Some reply => Ok (Response.make 200 [] (Some reply))
        | None => Ok (Response.make 400 [] (Some (error_payload "bad request")))
        end
    | None => Ok (Response.make 400 [] (Some (error_payload "bad request")))
    end.

(** ** The existence check *)

Module CheckOptions.
Record t := make { field : SearchField; query : string }.
End CheckOptions.

Section CheckOperation.

(** [to_dict] at a [CheckOptions], a [NamedTuple] and not a registered
    dataclass: the JSON value the library makes of it is left open. *)
Variable to_dict_CheckOptions : CheckOptions.t -> json.

Definition check (self : HackCheckClient.t) (options : CheckOptions.t)
    : result bool :=
  let url := API_BASE_URL ++ "/check" in
  let body := to_dict_CheckOptions options in
  resp <- _request self "POST" url (Some body) ;;
  decoded <- from_dict_CheckResponse resp ;;
  Ok (CheckResponse.found decoded).

End CheckOperation.

(** ** Further vocabulary *)

(** The path part of every search URL. *)
Definition search_path (options : SearchOptions.t) : string :=
  API_BASE_URL ++ "/search/" ++ SearchOptions.field options
    ++ "/" ++ SearchOptions.query options.

(** A status code the exchange routine has a branch for. *)
Definition classified (status : Z) : Prop :=
  status = 401 \/ status = 429 \/ status = 400 \/ status = 404.

(** A header field that was sent and whose text [int] rejects. *)
Definition unparseable (h : Headers.t) (key : string) : Prop :=
  Headers.values h key <> []
  /\ forall n, int_of_text (Headers.joined (Headers.values h key)) <> Ok n.

(** A decoder whose only failure is [SchemaMismatch]. *)
Definition only_mismatch {A : Type} (dec : json -> result A) : Prop :=
  forall j e, dec j = Raise e -> e = SchemaMismatch.

Definition sample_500 : Response.t :=
  Response.make 500 [("Content-Type", "application/json")]
    (Some (error_payload "Internal error.")).

Definition sample_204 : Response.t := Response.make 204 [] None.

Definition sample_401_html : Response.t :=
  Response.make 401 [("Content-Type", "text/html")] None.

Definition sample_404_other_shape : Response.t :=
  Response.make 404 [] (Some (JDict [("message", JStr "Not found.")])).

Definition sample_400_verbose : Response.t :=
  Response.make 400 []
    (Some (JDict [("code", JInt 17); ("error", JStr "bad field")])).

Definition sample_429_bad_remaining : Response.t :=
  Response.make 429
    [("X-HackCheck-Limit", "100"); ("X-HackCheck-Remaining", "none")]
    None.

(** A transport that is down. *)
Definition failing (e : exn) : Transport := fun _ _ _ _ => Raise e.

Definition sample_pagination_only_search : SearchOptions.t :=
  SearchOptions.make SearchFieldEmail "example@example.com" None
    (Some sample_pagination).

Definition sample_filter_only_search : SearchOptions.t :=
  SearchOptions.make SearchFieldEmail "a@b.com" (Some sample_filter) None.

Definition sample_result : list (string * json) :=
  [("email", JStr "a@b.com"); ("password", JStr "hunter2");
   ("username", JStr ""); ("full_name", JStr ""); ("ip_address", JStr "");
   ("phone_number", JStr ""); ("hash", JStr "");
   ("source", JDict [("name", JStr "example.org");
                     ("date", JStr "2019-03")])].

Definition sample_full_search_response : list (string * json) :=
  [("databases", JInt 1); ("results", JList [JDict sample_result]);
   ("pagination",
    JDict [("document_count", JInt 1);
           ("next", JDict [("offset", JInt 10); ("limit", JInt 10)])]);
   ("first_seen", JStr "2019-03-01"); ("last_seen", JStr "2019-03-01")].

Definition sample_monitors_empty : Response.t :=
  Response.make 200 []
    (Some (JDict [("asset_monitors", JList []);
                  ("domain_monitors", JList [])])).

Definition sample_check_encoding (options : CheckOptions.t) : json :=
  JList [JStr (CheckOptions.field options);
         JStr (CheckOptions.query options)].

(** A transport that answers [response] to a call carrying exactly the
    bearer token of [key], and is unreachable for any other call. *)
Definition token_checking (key : string) (response : Response.t)
    : Transport :=
  fun _ _ _ headers =>
    match headers with
    | [(name, value)] =>
        if String.eqb name "Authorization"
           && String.eqb value ("Bearer " ++ key)
        then Ok response
        else Raise (TransportError "no token")
    | _ => Raise (TransportError "no token")
    end.

(** A character of a decimal rendering is no white space and is ASCII. *)
Definition decimal_char (c : ascii) : Prop :=
  is_space c = false /\ (N_of_ascii c < 127)%N.

Definition decimal_chars (s : string) : Prop :=
  Forall decimal_char (list_ascii_of_string s).

(** The byte string with the given octets. *)
Definition of_octets (l : list nat) : string :=
  string_of_list_ascii (map ascii_of_nat l).

(** Limit in Arabic-Indic digits (U+0661 U+0662 U+0663, in UTF-8). *)
Definition sample_429_arabic_indic : Response.t :=
  Response.make 429
    [("X-HackCheck-Limit", of_octets [217; 161; 217; 162; 217; 163]%nat);
     ("X-HackCheck-Remaining", "0")]
    None.

(** Limit followed by the control character U+001C. *)
Definition sample_429_file_separator : Response.t :=
  Response.make 429
    [("X-HackCheck-Limit", of_octets [57; 28]%nat);
     ("X-HackCheck-Remaining", "0")]
    None.

Definition sample_429_bad_remaining_with_body : Response.t :=
  Response.make 429
    [("X-HackCheck-Limit", "100"); ("X-HackCheck-Remaining", "none")]
    (Some (error_payload "Too many requests.")).

Definition sample_result_of (email : string) : json :=
  JDict [("email", JStr email); ("password", JStr "");
         ("username", JStr ""); ("full_name", JStr "");
         ("ip_address", JStr ""); ("phone_number", JStr "");
         ("hash", JStr "");
         ("source", JDict [("name", JStr "example.org");
                           ("date", JStr "2019-03")])].

Definition sample_search_response_of (items : list json)
    : list (string * json) :=
  [("databases", JInt 1); ("results", JList items);
   ("first_seen", JStr "2019-03-01"); ("last_seen", JStr "2019-03-01")].

Definition sample_record_of (email : string) : SearchResult.t :=
  SearchResult.make email "" "" "" "" "" ""
    (Source.make "example.org" "2019-03").

(** * Properties *)

(** ** Strings *)

Lemma append_assoc (a b c : string) : (a ++ b) ++ c = a ++ b ++ c.
Proof.
  induction a as [|ch a IH]; simpl; [reflexivity | now rewrite IH].
Qed.

Lemma append_nil_r (a : string) : a ++ "" = a.
Proof.
  induction a as [|ch a IH]; simpl; [reflexivity | now rewrite IH].
Qed.

Example str_int_0 : str_int 0 = "0".
Proof. reflexivity. Qed.

Example str_int_10 : str_int 10 = "10".
Proof. reflexivity. Qed.

Example str_int_neg : str_int (-42) = "-42".
Proof. reflexivity. Qed.

(** ** URL construction *)

Ltac unfold_url :=
  unfold _generate_search_url, filter_params, pagination_params, join.

(** C1: with both [filter] and [pagination] present the URL is
    [{base}/search/{field}/{query}] followed by [?] and, in this order and
    joined by [&], [filter=], [databases=] (the names joined by commas),
    [offset=] and [limit=]; the sample request of the specification yields
    [.../search/email/a@b.com?filter=use&databases=x,y&offset=0&limit=10]. *)
Theorem generate_search_url_filter_and_pagination :
  (forall (options : SearchOptions.t) (f : SearchFilterOptions.t)
          (p : SearchPaginationOptions.t),
      SearchOptions.filter options = Some f ->
      SearchOptions.pagination options = Some p ->
      _generate_search_url options =
        API_BASE_URL ++ "/search/" ++ SearchOptions.field options
          ++ "/" ++ SearchOptions.query options
          ++ "?" ++ "filter=" ++ SearchFilterOptions.type f
          ++ "&" ++ "databases="
                 ++ join "," (SearchFilterOptions.databases f)
          ++ "&" ++ "offset=" ++ str_int (SearchPaginationOptions.offset p)
          ++ "&" ++ "limit=" ++ str_int (SearchPaginationOptions.limit p))
  /\ _generate_search_url sample_search =
       "https://api.hackcheck.io/search/email/a@b.com?filter=use&databases=x,y&offset=0&limit=10".
Proof.
  split; [| reflexivity].
  intros options f p Hf Hp.
  unfold_url. rewrite Hf, Hp.
  cbn [app String.concat].
  now rewrite !append_assoc.
Qed.

Lemma generate_search_url_filter_and_pagination_witness :
  SearchOptions.filter sample_search = Some sample_filter
  /\ SearchOptions.pagination sample_search = Some sample_pagination
  /\ _generate_search_url sample_search =
       API_BASE_URL ++ "/search/" ++ "email" ++ "/" ++ "a@b.com"
         ++ "?" ++ "filter=" ++ "use"
         ++ "&" ++ "databases=" ++ "x,y"
         ++ "&" ++ "offset=" ++ "0"
         ++ "&" ++ "limit=" ++ "10".
Proof.
  split; [reflexivity | split; [reflexivity |]].
  apply (proj1 generate_search_url_filter_and_pagination
           sample_search sample_filter sample_pagination);
    reflexivity.
Defined.

(** C8: with neither [filter] nor [pagination] the URL is exactly
    [{base}/search/{field}/{query}]: nothing, and in particular no [?], is
    appended. *)
Theorem generate_search_url_without_options :
  forall options : SearchOptions.t,
    SearchOptions.filter options = None ->
    SearchOptions.pagination options = None ->
    _generate_search_url options =
      API_BASE_URL ++ "/search/" ++ SearchOptions.field options
        ++ "/" ++ SearchOptions.query options.
Proof.
  intros options Hf Hp.
  unfold_url. now rewrite Hf, Hp.
Qed.

Lemma generate_search_url_without_options_witness :
  SearchOptions.filter sample_bare_search = None
  /\ SearchOptions.pagination sample_bare_search = None
  /\ _generate_search_url sample_bare_search =
       "https://api.hackcheck.io/search/email/a@b.com".
Proof.
  split; [reflexivity | split; [reflexivity |]].
  apply (generate_search_url_without_options sample_bare_search);
    reflexivity.
Defined.

(** C9: a filter whose [databases] list is empty still produces a query
    string: [?filter={mode}] followed by [&databases=] with an empty value
    (and then the pagination parameters, when there are any). *)
Theorem generate_search_url_empty_databases :
  forall (options : SearchOptions.t) (f : SearchFilterOptions.t),
    SearchOptions.filter options = Some f ->
    SearchFilterOptions.databases f = [] ->
    join "," (SearchFilterOptions.databases f) = ""
    /\ _generate_search_url options =
         API_BASE_URL ++ "/search/" ++ SearchOptions.field options
           ++ "/" ++ SearchOptions.query options
           ++ "?" ++ "filter=" ++ SearchFilterOptions.type f
           ++ "&" ++ "databases="
           ++ match SearchOptions.pagination options with
              | Some p =>
                  "&" ++ "offset="
                    ++ str_int (SearchPaginationOptions.offset p)
                    ++ "&" ++ "limit="
                    ++ str_int (SearchPaginationOptions.limit p)
              | None => ""
              end.
Proof.
  intros options f Hf Hd.
  split; [now rewrite Hd |].
  unfold_url. rewrite Hf, Hd.
  destruct (SearchOptions.pagination options) as [p|];
    cbn [app String.concat]; now rewrite !append_assoc, ?append_nil_r.
Qed.

Lemma generate_search_url_empty_databases_witness :
  SearchOptions.filter sample_empty_filter_search
    = Some (SearchFilterOptions.make SearchFilterIgnore [])
  /\ SearchFilterOptions.databases
       (SearchFilterOptions.make SearchFilterIgnore []) = []
  /\ _generate_search_url sample_empty_filter_search =
       "https://api.hackcheck.io/search/domain/example.org?filter=ignore&databases=&offset=20&limit=5".
Proof.
  split; [reflexivity | split; [reflexivity |]].
  exact (proj2 (generate_search_url_empty_databases
                  sample_empty_filter_search
                  (SearchFilterOptions.make SearchFilterIgnore [])
                  eq_refl eq_refl)).
Defined.

(** ** The exchange routine *)

Lemma request_answered self method url body response :
  answered self method url body response ->
  _request self method url body =
    if Response.status_code response =? 401 then on_401 response
    else if Response.status_code response =? 429 then on_429 response
    else if (Response.status_code response =? 400)
            || (Response.status_code response =? 404)
         then on_400_404 response
    else Response.json response.
Proof.
  unfold answered, _request. intros ->. reflexivity.
Qed.

Lemma request_401 self method url body response :
  answered self method url body response ->
  Response.status_code response = 401 ->
  _request self method url body = on_401 response.
Proof.
  intros Ha Hs. rewrite (request_answered _ _ _ _ _ Ha), Hs. reflexivity.
Qed.

Lemma request_429 self method url body response :
  answered self method url body response ->
  Response.status_code response = 429 ->
  _request self method url body = on_429 response.
Proof.
  intros Ha Hs. rewrite (request_answered _ _ _ _ _ Ha), Hs. reflexivity.
Qed.

Lemma request_400_404 self method url body response :
  answered self method url body response ->
  Response.status_code response = 400
  \/ Response.status_code response = 404 ->
  _request self method url body = on_400_404 response.
Proof.
  intros Ha [Hs | Hs]; rewrite (request_answered _ _ _ _ _ Ha), Hs;
    reflexivity.
Qed.

Lemma request_other self method url body response :
  answered self method url body response ->
  Response.status_code response <> 401 ->
  Response.status_code response <> 429 ->
  Response.status_code response <> 400 ->
  Response.status_code response <> 404 ->
  _request self method url body = Response.json response.
Proof.
  intros Ha H401 H429 H400 H404.
  rewrite (request_answered _ _ _ _ _ Ha).
  apply Z.eqb_neq in H401, H429, H400, H404.
  now rewrite H401, H429, H400, H404.
Qed.




(** C2, as the code has it: on a 401 response whose body decodes to an
    error payload the error raised is fixed by the decoded error string: [InvalidAPIKeyError] for "Invalid API key.",
    [UnauthorizedIPAddressError] for "Unauthorized IP address.", and
    [ServerError] for every other error string. *)
Theorem request_401_dispatch :
  forall self method url body response payload data,
    answered self method url body response ->
    Response.status_code response = 401 ->
    Response.json response = Ok payload ->
    from_dict_ErrorResponse payload = Ok data ->
    (ErrorResponse.error data = "Invalid API key." ->
     _request self method url body =
       Raise (InvalidAPIKeyError "The provided API key is invalid."))
    /\ (ErrorResponse.error data = "Unauthorized IP address." ->
        _request self method url body =
          Raise (UnauthorizedIPAddressError
                   "The request is coming from an unauthorized IP address."))
    /\ (ErrorResponse.error data <> "Invalid API key." ->
        ErrorResponse.error data <> "Unauthorized IP address." ->
        _request self method url body =
          Raise (ServerError "An unknown server error occurred.")).
Proof.
  intros self method url body response payload data Ha Hs Hj Hd.
  rewrite (request_401 _ _ _ _ _ Ha Hs).
  unfold on_401. rewrite Hj. cbn [bind]. rewrite Hd. cbn [bind].
  repeat split.
  - intros ->. reflexivity.
  - intros ->. reflexivity.
  - intros H1 H2.
    apply String.eqb_neq in H1, H2. now rewrite H1, H2.
Qed.

Lemma request_401_dispatch_witness :
  (_request (sample_client (sample_401 "Invalid API key.")) "GET" "u" None =
     Raise (InvalidAPIKeyError "The provided API key is invalid."))
  /\ (_request (sample_client (sample_401 "Unauthorized IP address."))
        "GET" "u" None =
        Raise (UnauthorizedIPAddressError
                 "The request is coming from an unauthorized IP address."))
  /\ (_request (sample_client (sample_401 "Key expired.")) "GET" "u" None =
        Raise (ServerError "An unknown server error occurred.")).
Proof.
  split; [| split].
  - apply (proj1 (request_401_dispatch
             (sample_client (sample_401 "Invalid API key.")) "GET" "u" None
             (sample_401 "Invalid API key.")
             (error_payload "Invalid API key.")
             (ErrorResponse.make "Invalid API key.")
             eq_refl eq_refl eq_refl eq_refl)).
    reflexivity.
  - apply (proj1 (proj2 (request_401_dispatch
             (sample_client (sample_401 "Unauthorized IP address."))
             "GET" "u" None
             (sample_401 "Unauthorized IP address.")
             (error_payload "Unauthorized IP address.")
             (ErrorResponse.make "Unauthorized IP address.")
             eq_refl eq_refl eq_refl eq_refl))).
    reflexivity.
  - apply (proj2 (proj2 (request_401_dispatch
             (sample_client (sample_401 "Key expired.")) "GET" "u" None
             (sample_401 "Key expired.")
             (error_payload "Key expired.")
             (ErrorResponse.make "Key expired.")
             eq_refl eq_refl eq_refl eq_refl)));
      cbn [ErrorResponse.error]; discriminate.
Defined.

(** A 401 response need not carry an error payload: one whose body is not
    JSON leaves the routine with [JSONDecodeError], which is none of the
    three errors. *)
Lemma request_401_without_error_payload :
  Response.status_code sample_401_html = 401
  /\ _request (sample_client sample_401_html) "GET" "u" None
     = Raise JSONDecodeError
  /\ (forall msg,
        _request (sample_client sample_401_html) "GET" "u" None
        <> Raise (InvalidAPIKeyError msg))
  /\ (forall msg,
        _request (sample_client sample_401_html) "GET" "u" None
        <> Raise (UnauthorizedIPAddressError msg))
  /\ (forall msg,
        _request (sample_client sample_401_html) "GET" "u" None
        <> Raise (ServerError msg)).
Proof.
  repeat split; intros msg H; discriminate H.
Qed.

(** A 401 response whose body is not an error payload leaves the routine
    with the failure of reading it. *)
Lemma request_401_unreadable_payload self method url body response e :
  answered self method url body response ->
  Response.status_code response = 401 ->
  (payload <- Response.json response ;; from_dict_ErrorResponse payload)
    = Raise e ->
  _request self method url body = Raise e.
Proof.
  intros Ha Hs He.
  rewrite (request_401 _ _ _ _ _ Ha Hs). unfold on_401.
  destruct (Response.json response) as [payload | e']; cbn [bind] in *.
  - now rewrite He.
  - now injection He as ->.
Qed.

(** C5: a 400 or 404 response whose body is [{"error": s}] raises the
    generic [Exception] whose message is [s] itself. *)
Theorem request_400_404_message :
  forall self method url body response s,
    answered self method url body response ->
    Response.status_code response = 400
    \/ Response.status_code response = 404 ->
    Response.body response = Some (JDict [("error", JStr s)]) ->
    _request self method url body = Raise (Exception s).
Proof.
  intros self method url body response s Ha Hs Hb.
  rewrite (request_400_404 _ _ _ _ _ Ha Hs).
  unfold on_400_404, Response.json. rewrite Hb. reflexivity.
Qed.

Lemma request_400_404_message_witness :
  answered (sample_client sample_400) "GET" "u" None sample_400
  /\ (Response.status_code sample_400 = 400
      \/ Response.status_code sample_400 = 404)
  /\ Response.body sample_400 = Some (JDict [("error", JStr "bad field")])
  /\ _request (sample_client sample_400) "GET" "u" None =
       Raise (Exception "bad field").
Proof.
  split; [reflexivity | split; [left; reflexivity | split; [reflexivity |]]].
  apply (request_400_404_message (sample_client sample_400) "GET" "u" None
           sample_400 "bad field");
    [reflexivity | left; reflexivity | reflexivity].
Defined.

(** ** Rate limiting *)

Lemma int_header_value h key n :
  header_value h key n -> int_ (Headers.get h key 0) = Ok n.
Proof.
  intros [Habsent | m Hpresent Hint]; unfold Headers.get.
  - now rewrite Habsent.
  - destruct (Headers.values h key) as [| v vs]; [contradiction | exact Hint].
Qed.

Lemma int_of_str_only_ValueError s e :
  int_of_str s = Raise e -> e = ValueError.
Proof.
  unfold int_of_str.
  destruct (match strip s with
            | String "-" ds => option_map Z.opp (int_digits AtStart 0 ds)
            | String "+" ds => int_digits AtStart 0 ds
            | _ => int_digits AtStart 0 (strip s)
            end) as [n |].
  - discriminate.
  - now intros [= <-].
Qed.

Lemma int_of_text_only_ValueError t e :
  int_of_text t = Raise e -> e = ValueError.
Proof. apply int_of_str_only_ValueError. Qed.

Lemma header_value_or_unparseable h key :
  (exists n, header_value h key n) \/ unparseable h key.
Proof.
  destruct (Headers.values h key) as [| v vs] eqn:Hv.
  - left. exists 0. now apply header_absent.
  - destruct (int_of_text (Headers.joined (v :: vs))) as [n | e] eqn:Hi.
    + left. exists n. apply header_integer; rewrite Hv; [discriminate | exact Hi].
    + right. split; rewrite Hv; [discriminate |].
      intros n. rewrite Hi. discriminate.
Qed.

Lemma int_unparseable h key :
  unparseable h key -> int_ (Headers.get h key 0) = Raise ValueError.
Proof.
  intros [Hpresent Hbad]. unfold Headers.get.
  destruct (Headers.values h key) as [| v vs]; [contradiction |].
  cbn [int_].
  destruct (int_of_text (Headers.joined (v :: vs))) as [n | e] eqn:Hi.
  - now contradiction (Hbad n).
  - now rewrite (int_of_text_only_ValueError _ _ Hi).
Qed.

(** *** The decimal rendering of an integer is read back as that integer *)

Lemma string_of_text_octets s : string_of_text (octets s) = s.
Proof.
  unfold string_of_text, octets. rewrite map_map.
  rewrite (map_ext _ (fun a => a)) by apply ascii_N_embedding.
  rewrite map_id. apply string_of_list_ascii_of_string.
Qed.

Lemma transform_below_127 t :
  Forall (fun ch => (ch < 127)%N) t -> transform t = t.
Proof.
  induction 1 as [| ch t Hch _ IH]; cbn [transform]; [reflexivity |].
  apply N.ltb_lt in Hch. now rewrite Hch, IH.
Qed.

Lemma lstrip_decimal_chars s : decimal_chars s -> lstrip s = s.
Proof.
  destruct s as [| c s]; [reflexivity |].
  intros H. inversion H as [| c' l [Hc _] _]; subst.
  cbn [lstrip]. now rewrite Hc.
Qed.

Lemma reverse_decimal_chars s : decimal_chars s -> decimal_chars (reverse s).
Proof.
  unfold decimal_chars, reverse. intros H.
  rewrite list_ascii_of_string_of_list_ascii.
  now apply Forall_rev.
Qed.

Lemma reverse_involutive s : reverse (reverse s) = s.
Proof.
  unfold reverse. rewrite list_ascii_of_string_of_list_ascii, rev_involutive.
  apply string_of_list_ascii_of_string.
Qed.

Lemma strip_decimal_chars s : decimal_chars s -> strip s = s.
Proof.
  intros H. unfold strip.
  rewrite (lstrip_decimal_chars _ H).
  rewrite (lstrip_decimal_chars _ (reverse_decimal_chars _ H)).
  apply reverse_involutive.
Qed.

Lemma decimal_chars_uint d : decimal_chars (NilEmpty.string_of_uint d).
Proof.
  induction d; cbn [NilEmpty.string_of_uint]; unfold decimal_chars;
    cbn [list_ascii_of_string]; constructor; try assumption;
    split; reflexivity.
Qed.

(** Evaluates [digit_of] at the literal character in the goal. *)
Ltac eval_digit :=
  match goal with
  | |- context [digit_of ?c] =>
      let v := eval vm_compute in (digit_of c) in
      change (digit_of c) with v; cbv beta iota
  end.

Lemma int_digits_acc d p :
  int_digits AfterDigit (Zpos p) (NilEmpty.string_of_uint d)
  = Some (Zpos (Pos.of_uint_acc d p)).
Proof.
  revert p. induction d; intros p;
    cbn [NilEmpty.string_of_uint int_digits Pos.of_uint_acc];
    try reflexivity;
    eval_digit;
    match goal with
    | |- int_digits AfterDigit ?z _ = Some (Zpos (Pos.of_uint_acc _ ?q)) =>
        replace z with (Zpos q) by lia
    end; apply IHd.
Qed.

Lemma int_digits_uint d st :
  d <> Decimal.Nil \/ st = AfterDigit ->
  int_digits st 0 (NilEmpty.string_of_uint d) = Some (Z.of_N (Pos.of_uint d)).
Proof.
  revert st. induction d; intros st Hst;
    cbn [NilEmpty.string_of_uint int_digits Pos.of_uint].
  - destruct Hst as [H | ->]; [now contradiction H | reflexivity].
  - eval_digit. change (10 * 0 + 0) with 0. apply IHd. now right.
  - eval_digit. apply (int_digits_acc d 1).
  - eval_digit. apply (int_digits_acc d 2).
  - eval_digit. apply (int_digits_acc d 3).
  - eval_digit. apply (int_digits_acc d 4).
  - eval_digit. apply (int_digits_acc d 5).
  - eval_digit. apply (int_digits_acc d 6).
  - eval_digit. apply (int_digits_acc d 7).
  - eval_digit. apply (int_digits_acc d 8).
  - eval_digit. apply (int_digits_acc d 9).
Qed.

Lemma uint_leading_char d c s :
  NilEmpty.string_of_uint d = String c s -> c <> "-"%char /\ c <> "+"%char.
Proof.
  destruct d; cbn [NilEmpty.string_of_uint]; try discriminate;
    intros [= <- _]; split; discriminate.
Qed.

Lemma int_of_str_uint d :
  d <> Decimal.Nil ->
  int_of_str (NilEmpty.string_of_uint d) = Ok (Z.of_N (Pos.of_uint d)).
Proof.
  intros Hd. unfold int_of_str.
  rewrite (strip_decimal_chars _ (decimal_chars_uint d)).
  assert (H := int_digits_uint d AtStart (or_introl Hd)).
  destruct (NilEmpty.string_of_uint d) as [| c s] eqn:E.
  - now rewrite H.
  - destruct (uint_leading_char _ _ _ E) as [Hm Hp].
    destruct (Ascii.eqb_spec c "-"); [contradiction |].
    destruct (Ascii.eqb_spec c "+"); [contradiction |].
    destruct c as [[] [] [] [] [] [] [] []]; try (now rewrite H); contradiction.
Qed.

Lemma to_uint_not_Nil p : Pos.to_uint p <> Decimal.Nil.
Proof.
  intros H. pose proof (DecimalPos.Unsigned.of_to p) as Hp.
  rewrite H in Hp. discriminate Hp.
Qed.

Lemma int_of_str_str_int n : int_of_str (str_int n) = Ok n.
Proof.
  unfold str_int. destruct n as [| p | p]; cbn [Z.to_int NilEmpty.string_of_int].
  - reflexivity.
  - rewrite (int_of_str_uint _ (to_uint_not_Nil p)).
    now rewrite DecimalPos.Unsigned.of_to.
  - unfold int_of_str.
    assert (Hc : decimal_chars (String "-" (NilEmpty.string_of_uint (Pos.to_uint p)))).
    { constructor; [split; reflexivity | apply decimal_chars_uint]. }
    rewrite (strip_decimal_chars _ Hc).
    rewrite (int_digits_uint _ AtStart (or_introl (to_uint_not_Nil p))).
    cbn [option_map]. now rewrite DecimalPos.Unsigned.of_to.
Qed.

Lemma decimal_chars_str_int n : decimal_chars (str_int n).
Proof.
  unfold str_int. destruct n as [| p | p]; cbn [Z.to_int NilEmpty.string_of_int].
  - apply decimal_chars_uint.
  - apply decimal_chars_uint.
  - constructor; [split; reflexivity | apply decimal_chars_uint].
Qed.

Lemma int_of_text_str_int n : int_of_text (octets (str_int n)) = Ok n.
Proof.
  unfold int_of_text. rewrite transform_below_127.
  - rewrite string_of_text_octets. apply int_of_str_str_int.
  - unfold octets. apply Forall_map.
    eapply Forall_impl; [| apply decimal_chars_str_int].
    intros c [_ Hc]. exact Hc.
Qed.

Lemma header_value_decimal h key n :
  Headers.values h key = [octets (str_int n)] -> header_value h key n.
Proof.
  intros H. apply header_integer; rewrite H; [discriminate |].
  apply int_of_text_str_int.
Qed.

Lemma on_429_rate_limit response limit remaining :
  header_value (Response.headers response) "X-HackCheck-Limit" limit ->
  header_value (Response.headers response) "X-HackCheck-Remaining" remaining ->
  on_429 response = Raise (RateLimitError limit remaining).
Proof.
  intros Hl Hr. unfold on_429.
  now rewrite (int_header_value _ _ _ Hl), (int_header_value _ _ _ Hr).
Qed.

(** C4, as the code has it: a 429 response raises [RateLimitError] with
    [limit] and [remaining] read from [X-HackCheck-Limit] and
    [X-HackCheck-Remaining], each being 0 when its header is absent and
    the integer the header text denotes when it is present (the decimal
    rendering of [n] denotes [n]); headers 100 and 0 give [limit = 100],
    [remaining = 0].  A header that is present with text that denotes no
    integer is not defaulted: the call ends in [ValueError]. *)
Theorem request_429_rate_limit :
  forall self method url body response,
    answered self method url body response ->
    Response.status_code response = 429 ->
    (forall limit remaining,
        header_value (Response.headers response) "X-HackCheck-Limit" limit ->
        header_value (Response.headers response) "X-HackCheck-Remaining"
          remaining ->
        _request self method url body = Raise (RateLimitError limit remaining))
    /\ (forall limit remaining,
          Headers.values (Response.headers response) "X-HackCheck-Limit"
            = [octets (str_int limit)] ->
          Headers.values (Response.headers response) "X-HackCheck-Remaining"
            = [octets (str_int remaining)] ->
          _request self method url body
            = Raise (RateLimitError limit remaining))
    /\ (unparseable (Response.headers response) "X-HackCheck-Limit"
        \/ unparseable (Response.headers response) "X-HackCheck-Remaining" ->
        _request self method url body = Raise ValueError).
Proof.
  intros self method url body response Ha Hs.
  rewrite (request_429 _ _ _ _ _ Ha Hs).
  split; [| split].
  - intros limit remaining Hl Hr. now apply on_429_rate_limit.
  - intros limit remaining Hl Hr.
    apply on_429_rate_limit; now apply header_value_decimal.
  - intros Hbad. unfold on_429.
    destruct (header_value_or_unparseable (Response.headers response)
                "X-HackCheck-Limit") as [[limit Hl] | Hl].
    + destruct Hbad as [Hbad | Hbad].
      * now rewrite (int_unparseable _ _ Hbad).
      * now rewrite (int_header_value _ _ _ Hl), (int_unparseable _ _ Hbad).
    + now rewrite (int_unparseable _ _ Hl).
Qed.

Lemma request_429_rate_limit_witness :
  Headers.values (Response.headers sample_429) "X-HackCheck-Limit"
    = [octets (str_int 100)]
  /\ Headers.values (Response.headers sample_429) "X-HackCheck-Remaining"
     = [octets (str_int 0)]
  /\ _request (sample_client sample_429) "GET" "u" None =
       Raise (RateLimitError 100 0)
  /\ _request (sample_client (Response.make 429 [] None)) "GET" "u" None =
       Raise (RateLimitError 0 0)
  /\ _request (sample_client sample_429_file_separator) "GET" "u" None =
       Raise ValueError.
Proof.
  split; [reflexivity | split; [reflexivity | split; [| split]]].
  - exact (proj1 (proj2 (request_429_rate_limit
                           (sample_client sample_429) "GET" "u" None
                           sample_429 eq_refl eq_refl))
             100 0 eq_refl eq_refl).
  - apply (proj1 (request_429_rate_limit
                    (sample_client (Response.make 429 [] None))
                    "GET" "u" None (Response.make 429 [] None)
                    eq_refl eq_refl) 0 0).
    + apply header_absent. reflexivity.
    + apply header_absent. reflexivity.
  - apply (proj2 (proj2 (request_429_rate_limit
                           (sample_client sample_429_file_separator)
                           "GET" "u" None sample_429_file_separator
                           eq_refl eq_refl))).
    left. split; [discriminate | intros n; discriminate].
Defined.

(** A rate-limit header that is present and is not an integer does not
    default to 0: [int] fails and the [ValueError] leaves the routine in
    place of a [RateLimitError]. *)
Lemma request_429_unparseable_header :
  Headers.get (Response.headers sample_429_bad_limit) "X-HackCheck-Limit" 0
    = inl (octets "unlimited")
  /\ _request (sample_client sample_429_bad_limit) "GET" "u" None
       = Raise ValueError
  /\ forall limit remaining,
       _request (sample_client sample_429_bad_limit) "GET" "u" None
         <> Raise (RateLimitError limit remaining).
Proof.
  split; [reflexivity | split; [reflexivity |]].
  intros limit remaining H. discriminate H.
Qed.

(** A 429 response does not always end in [RateLimitError], whatever its
    body: with a rate-limit header that is no integer the call ends in
    [ValueError], with a body and without one. *)
Lemma request_429_bad_header_whatever_body :
  Response.headers sample_429_bad_remaining_with_body
    = Response.headers sample_429_bad_remaining
  /\ Response.body sample_429_bad_remaining_with_body
     <> Response.body sample_429_bad_remaining
  /\ _request (sample_client sample_429_bad_remaining) "GET" "u" None
     = Raise ValueError
  /\ _request (sample_client sample_429_bad_remaining_with_body)
       "GET" "u" None
     = Raise ValueError
  /\ forall limit remaining,
       _request (sample_client sample_429_bad_remaining_with_body)
         "GET" "u" None
       <> Raise (RateLimitError limit remaining).
Proof.
  split; [reflexivity | split; [discriminate |]].
  split; [reflexivity | split; [reflexivity |]].
  intros limit remaining H. discriminate H.
Qed.

(** C10, as the code has it: the outcome of a 429 response is a function
    of its headers alone.  Two 429 responses with the same headers give
    the same outcome whatever their bodies are (a JSON document of any
    shape, or none): the [RateLimitError] the headers stand for when each
    of the two is absent or denotes an integer, and [ValueError] when one
    of them is present and denotes none. *)
Theorem request_429_ignores_body :
  forall self method url body response self' method' url' body' response',
    answered self method url body response ->
    answered self' method' url' body' response' ->
    Response.status_code response = 429 ->
    Response.status_code response' = 429 ->
    Response.headers response' = Response.headers response ->
    _request self' method' url' body' = _request self method url body
    /\ (forall limit remaining,
         header_value (Response.headers response) "X-HackCheck-Limit" limit ->
         header_value (Response.headers response) "X-HackCheck-Remaining"
           remaining ->
         _request self method url body
           = Raise (RateLimitError limit remaining)
         /\ _request self' method' url' body'
              = Raise (RateLimitError limit remaining))
    /\ (unparseable (Response.headers response) "X-HackCheck-Limit"
        \/ unparseable (Response.headers response) "X-HackCheck-Remaining" ->
        _request self method url body = Raise ValueError
        /\ _request self' method' url' body' = Raise ValueError).
Proof.
  intros self method url body response self' method' url' body' response'
         Ha Ha' Hs Hs' Hh.
  rewrite (request_429 _ _ _ _ _ Ha Hs), (request_429 _ _ _ _ _ Ha' Hs').
  assert (Heq : on_429 response' = on_429 response)
    by (unfold on_429; now rewrite Hh).
  split; [exact Heq | split].
  - intros limit remaining Hl Hr.
    rewrite Heq. split; now apply on_429_rate_limit.
  - intros Hbad. rewrite Heq.
    assert (H : on_429 response = Raise ValueError); [| now split].
    unfold on_429.
    destruct (header_value_or_unparseable (Response.headers response)
                "X-HackCheck-Limit") as [[limit Hl] | Hl].
    + destruct Hbad as [Hbad | Hbad].
      * now rewrite (int_unparseable _ _ Hbad).
      * now rewrite (int_header_value _ _ _ Hl), (int_unparseable _ _ Hbad).
    + now rewrite (int_unparseable _ _ Hl).
Qed.

Lemma request_429_ignores_body_witness :
  Response.body sample_429 <> Response.body sample_429_without_body
  /\ _request (sample_client sample_429_without_body) "PUT" "v" None
     = _request (sample_client sample_429) "GET" "u" None
  /\ _request (sample_client sample_429_without_body) "PUT" "v" None
     = Raise (RateLimitError 100 0).
Proof.
  split; [discriminate |].
  pose proof (request_429_ignores_body
                (sample_client sample_429) "GET" "u" None sample_429
                (sample_client sample_429_without_body) "PUT" "v" None
                sample_429_without_body
                eq_refl eq_refl eq_refl eq_refl eq_refl)
    as (Hsame & Hrate & _).
  split; [exact Hsame |].
  apply (Hrate 100 0).
  - apply header_integer; [discriminate | reflexivity].
  - apply header_integer; [discriminate | reflexivity].
Defined.

(** ** Classification comes before decoding *)

(** Every operation is the shared routine followed by its decoder. *)
Lemma search_is_request_then_decode self options :
  search self options =
    (resp <- _request self "GET" (_generate_search_url options) None ;;
     from_dict_SearchResponse resp).
Proof. reflexivity. Qed.

Lemma update_asset_monitor_is_request_then_decode iso self monitor_id params :
  update_asset_monitor iso self monitor_id params =
    (resp <- _request self "PUT"
               (API_BASE_URL ++ "/monitors/asset/" ++ monitor_id)
               (Some (to_dict_UpdateAssetMonitorParams params)) ;;
     from_dict_AssetMonitor iso resp).
Proof. reflexivity. Qed.






(** ** Optional fields *)

Lemma optional_missing_or_null {A : Type} (dec : json -> result A) d key :
  missing_or_null d key -> optional dec d key = Ok None.
Proof.
  unfold optional. intros [-> | ->]; reflexivity.
Qed.

(** Splits a chain of binds found in hypothesis [H] on its first step. *)
Ltac step_bind H :=
  match type of H with
  | context [bind ?m _] =>
      let E := fresh "E" in
      destruct m eqn:E; cbn [bind] in H; try discriminate H
  end.

(** Absence of an optional field is never a failure: the rest of the
    object decides whether decoding succeeds. *)
Lemma from_dict_SearchResponse_without_pagination d databases results
    first_seen last_seen :
  required as_int d "databases" = Ok databases ->
  required (as_list from_dict_SearchResult) d "results" = Ok results ->
  required as_str d "first_seen" = Ok first_seen ->
  required as_str d "last_seen" = Ok last_seen ->
  missing_or_null d "pagination" ->
  from_dict_SearchResponse (JDict d) =
    Ok (SearchResponse.make databases results None first_seen last_seen).
Proof.
  intros Hd Hr Hf Hl Hp.
  unfold from_dict_SearchResponse. cbn [as_dict bind].
  now rewrite Hd, Hr, (optional_missing_or_null _ _ _ Hp), Hf, Hl.
Qed.

Lemma from_dict_SearchResponsePagination_without_windows d document_count :
  required as_int d "document_count" = Ok document_count ->
  missing_or_null d "next" ->
  missing_or_null d "prev" ->
  from_dict_SearchResponsePagination (JDict d) =
    Ok (SearchResponsePagination.make document_count None None).
Proof.
  intros Hd Hn Hp.
  unfold from_dict_SearchResponsePagination. cbn [as_dict bind].
  now rewrite Hd, (optional_missing_or_null _ _ _ Hn),
    (optional_missing_or_null _ _ _ Hp).
Qed.

(** C6: in an object decoded into [SearchResponse] or
    [SearchResponsePagination], each of [pagination], [next] and [prev]
    comes out as [None] when its key is missing or holds [null]; no
    zero-valued window or empty pagination record is put in its place. *)
Theorem optional_fields_decode_to_absent :
  (forall d v,
      from_dict_SearchResponse (JDict d) = Ok v ->
      missing_or_null d "pagination" ->
      SearchResponse.pagination v = None)
  /\ (forall d v,
        from_dict_SearchResponsePagination (JDict d) = Ok v ->
        (missing_or_null d "next" -> SearchResponsePagination.next v = None)
        /\ (missing_or_null d "prev" ->
            SearchResponsePagination.prev v = None)).
Proof.
  split.
  - intros d v H Hp.
    unfold from_dict_SearchResponse in H. cbn [as_dict bind] in H.
    rewrite (optional_missing_or_null _ _ _ Hp) in H.
    repeat step_bind H.
    now injection H as <-.
  - intros d v H. split; intros Hk;
      unfold from_dict_SearchResponsePagination in H;
      cbn [as_dict bind] in H;
      rewrite (optional_missing_or_null _ _ _ Hk) in H;
      repeat step_bind H; now injection H as <-.
Qed.

Lemma optional_fields_decode_to_absent_witness :
  (from_dict_SearchResponse (JDict sample_search_response) =
     Ok (SearchResponse.make 3 [] None "2019-03-01" "2023-11-20")
   /\ missing_or_null sample_search_response "pagination"
   /\ SearchResponse.pagination
        (SearchResponse.make 3 [] None "2019-03-01" "2023-11-20") = None)
  /\ (from_dict_SearchResponsePagination (JDict sample_response_pagination) =
        Ok (SearchResponsePagination.make 12 None None)
      /\ missing_or_null sample_response_pagination "next"
      /\ missing_or_null sample_response_pagination "prev"
      /\ SearchResponsePagination.next
           (SearchResponsePagination.make 12 None None) = None
      /\ SearchResponsePagination.prev
           (SearchResponsePagination.make 12 None None) = None).
Proof.
  assert (Hpag : missing_or_null sample_search_response "pagination")
    by (right; reflexivity).
  assert (Hnext : missing_or_null sample_response_pagination "next")
    by (left; reflexivity).
  assert (Hprev : missing_or_null sample_response_pagination "prev")
    by (right; reflexivity).
  split; [split; [reflexivity | split; [exact Hpag |]]
         | split; [reflexivity
                  | split; [exact Hnext | split; [exact Hprev | split]]]].
  - exact (proj1 optional_fields_decode_to_absent sample_search_response
             (SearchResponse.make 3 [] None "2019-03-01" "2023-11-20")
             eq_refl Hpag).
  - exact (proj1 (proj2 optional_fields_decode_to_absent
                    sample_response_pagination
                    (SearchResponsePagination.make 12 None None) eq_refl)
             Hnext).
  - exact (proj2 (proj2 optional_fields_decode_to_absent
                    sample_response_pagination
                    (SearchResponsePagination.make 12 None None) eq_refl)
             Hprev).
Defined.

(** ** Round trip of an asset-monitor update *)

(** The reply read to the letter (the encoded fields with [id], [status]
    and the timestamps added) is not an [AssetMonitor] object: the request
    names the field [asset_type], the monitor names it [type], and
    [expires_soon] is required too. *)
Lemma encoded_plus_added_does_not_decode :
  encoded_plus_added (to_dict_UpdateAssetMonitorParams sample_params)
    "m-1" MonitorStatusRunning "2024-01-01T00:00:00" "2025-01-01T00:00:00"
  = JDict [("asset_type", JStr "email"); ("asset", JStr "a@b.com");
           ("notification_email", JStr "n@x.com");
           ("id", JStr "m-1"); ("status", JInt 0);
           ("created_at", JStr "2024-01-01T00:00:00");
           ("ends_at", JStr "2025-01-01T00:00:00")]
  /\ from_dict_AssetMonitor sample_fromisoformat
       (encoded_plus_added (to_dict_UpdateAssetMonitorParams sample_params)
          "m-1" MonitorStatusRunning
          "2024-01-01T00:00:00" "2025-01-01T00:00:00")
     = Raise SchemaMismatch
  /\ forall monitor,
       from_dict_AssetMonitor sample_fromisoformat
         (encoded_plus_added
            (to_dict_UpdateAssetMonitorParams sample_params)
            "m-1" MonitorStatusRunning
            "2024-01-01T00:00:00" "2025-01-01T00:00:00")
       <> Ok monitor.
Proof.
  split; [reflexivity | split; [reflexivity |]].
  intros monitor H. discriminate H.
Qed.

Lemma echoed_asset_monitor_of_params p id status expires_soon
    created_at ends_at :
  echoed_asset_monitor (to_dict_UpdateAssetMonitorParams p) id status
    expires_soon created_at ends_at =
  Some (JDict [("id", JStr id); ("status", JInt status);
               ("type", JStr (UpdateAssetMonitorParams.asset_type p));
               ("asset", JStr (UpdateAssetMonitorParams.asset p));
               ("notification_email",
                JStr (UpdateAssetMonitorParams.notification_email p));
               ("expires_soon", JBool expires_soon);
               ("created_at", JStr created_at);
               ("ends_at", JStr ends_at)]).
Proof. reflexivity. Qed.

(** C7, as the code has it: the request body encodes the three fields as
    [asset_type], [asset] and [notification_email]; when the service
    answers with the monitor that carries these values under [type],
    [asset] and [notification_email], next to [id], [status],
    [expires_soon] and the two timestamps, decoding the answer gives an
    [AssetMonitor] whose field type, asset and notification email are the
    ones that were sent, and [update_asset_monitor] returns it. *)
Theorem update_asset_monitor_round_trip :
  forall iso p key monitor_id id status expires_soon created_at ends_at
         created ended,
    iso created_at = Some created ->
    iso ends_at = Some ended ->
    (exists reply,
        echoed_asset_monitor (to_dict_UpdateAssetMonitorParams p) id status
          expires_soon created_at ends_at = Some reply
        /\ from_dict_AssetMonitor iso reply =
             Ok (AssetMonitor.make id status
                   (UpdateAssetMonitorParams.asset_type p)
                   (UpdateAssetMonitorParams.asset p)
                   (UpdateAssetMonitorParams.notification_email p)
                   expires_soon created ended))
    /\ update_asset_monitor iso
         (HackCheckClient.make key
            (echoing_service id status expires_soon created_at ends_at))
         monitor_id p =
       Ok (AssetMonitor.make id status
             (UpdateAssetMonitorParams.asset_type p)
             (UpdateAssetMonitorParams.asset p)
             (UpdateAssetMonitorParams.notification_email p)
             expires_soon created ended).
Proof.
  intros iso p key monitor_id id status expires_soon created_at ends_at
         created ended Hc He.
  assert (Hdecode :
    from_dict_AssetMonitor iso
      (JDict [("id", JStr id); ("status", JInt status);
              ("type", JStr (UpdateAssetMonitorParams.asset_type p));
              ("asset", JStr (UpdateAssetMonitorParams.asset p));
              ("notification_email",
               JStr (UpdateAssetMonitorParams.notification_email p));
              ("expires_soon", JBool expires_soon);
              ("created_at", JStr created_at);
              ("ends_at", JStr ends_at)]) =
    Ok (AssetMonitor.make id status
          (UpdateAssetMonitorParams.asset_type p)
          (UpdateAssetMonitorParams.asset p)
          (UpdateAssetMonitorParams.notification_email p)
          expires_soon created ended)).
  { unfold from_dict_AssetMonitor, required, as_datetime.
    cbn. now rewrite Hc, He. }
  split.
  - eexists. split; [apply echoed_asset_monitor_of_params | exact Hdecode].
  - rewrite update_asset_monitor_is_request_then_decode.
    unfold _request, echoing_service. cbn [HackCheckClient._http].
    rewrite echoed_asset_monitor_of_params.
    cbn [bind Response.status_code Z.eqb Pos.eqb orb Response.json
         Response.body].
    exact Hdecode.
Qed.

Lemma update_asset_monitor_round_trip_witness :
  sample_fromisoformat "2024-01-01T00:00:00" = Some sample_created_at
  /\ sample_fromisoformat "2025-01-01T00:00:00" = Some sample_ends_at
  /\ update_asset_monitor sample_fromisoformat
       (HackCheckClient.make "sample-key"
          (echoing_service "m-1" MonitorStatusRunning false
             "2024-01-01T00:00:00" "2025-01-01T00:00:00"))
       "m-1" sample_params =
     Ok (AssetMonitor.make "m-1" MonitorStatusRunning
           "email" "a@b.com" "n@x.com" false
           sample_created_at sample_ends_at).
Proof.
  split; [reflexivity | split; [reflexivity |]].
  exact (proj2 (update_asset_monitor_round_trip sample_fromisoformat
                  sample_params "sample-key" "m-1" "m-1"
                  MonitorStatusRunning false
                  "2024-01-01T00:00:00" "2025-01-01T00:00:00"
                  sample_created_at sample_ends_at eq_refl eq_refl)).
Defined.

(** * Further properties of the client *)

(** ** The search URL in general *)

(** X1: with exactly one of the two options present the query string holds
    that option's two parameters alone. *)
Theorem generate_search_url_one_option :
  (forall options p,
      SearchOptions.filter options = None ->
      SearchOptions.pagination options = Some p ->
      _generate_search_url options =
        search_path options
          ++ "?" ++ "offset=" ++ str_int (SearchPaginationOptions.offset p)
          ++ "&" ++ "limit=" ++ str_int (SearchPaginationOptions.limit p))
  /\ (forall options f,
        SearchOptions.filter options = Some f ->
        SearchOptions.pagination options = None ->
        _generate_search_url options =
          search_path options
            ++ "?" ++ "filter=" ++ SearchFilterOptions.type f
            ++ "&" ++ "databases="
            ++ join "," (SearchFilterOptions.databases f)).
Proof.
  split.
  - intros options p Hf Hp. unfold_url. unfold search_path.
    rewrite Hf, Hp. cbn [app String.concat]. now rewrite !append_assoc.
  - intros options f Hf Hp. unfold_url. unfold search_path.
    rewrite Hf, Hp. cbn [app String.concat]. now rewrite !append_assoc.
Qed.

Lemma generate_search_url_one_option_witness :
  _generate_search_url sample_pagination_only_search =
    "https://api.hackcheck.io/search/email/example@example.com?offset=0&limit=10"
  /\ _generate_search_url sample_filter_only_search =
       "https://api.hackcheck.io/search/email/a@b.com?filter=use&databases=x,y".
Proof.
  split.
  - exact (proj1 generate_search_url_one_option
             sample_pagination_only_search sample_pagination
             eq_refl eq_refl).
  - exact (proj2 generate_search_url_one_option
             sample_filter_only_search sample_filter eq_refl eq_refl).
Defined.

(** X2: every search URL is the path [{base}/search/{field}/{query}] followed
    by a suffix that is empty exactly when both options are absent and
    otherwise is a [?] with something after it. *)
Theorem generate_search_url_shape :
  forall options, exists suffix,
    _generate_search_url options = search_path options ++ suffix
    /\ (suffix = "" <->
        SearchOptions.filter options = None
        /\ SearchOptions.pagination options = None)
    /\ (suffix <> "" ->
        exists rest, suffix = "?" ++ rest /\ rest <> "").
Proof.
  intros options. unfold_url. unfold search_path.
  destruct (SearchOptions.filter options) as [f |],
           (SearchOptions.pagination options) as [p |];
    cbn [app String.concat].
  - eexists. split; [reflexivity |]. split.
    + split; [discriminate | intros [H _]; discriminate H].
    + intros _. eexists. split; [reflexivity | discriminate].
  - eexists. split; [reflexivity |]. split.
    + split; [discriminate | intros [H _]; discriminate H].
    + intros _. eexists. split; [reflexivity | discriminate].
  - eexists. split; [reflexivity |]. split.
    + split; [discriminate | intros [_ H]; discriminate H].
    + intros _. eexists. split; [reflexivity | discriminate].
  - exists "". split; [now rewrite !append_assoc, ?append_nil_r |]. split.
    + split; auto.
    + intros H. now contradiction H.
Qed.

Lemma generate_search_url_shape_witness :
  exists suffix,
    _generate_search_url sample_pagination_only_search
      = search_path sample_pagination_only_search ++ suffix
    /\ exists rest, suffix = "?" ++ rest /\ rest <> "".
Proof.
  destruct (generate_search_url_shape sample_pagination_only_search)
    as (suffix & Hurl & Hempty & Hrest).
  exists suffix. split; [exact Hurl |].
  apply Hrest. intros Hs.
  destruct (proj1 Hempty Hs) as [_ Hp]. discriminate Hp.
Defined.

(** X3: the query is put into the URL as it is: a query that ends in the text
    of a query string gives the very URL of the shorter query with those
    pagination options. *)
Theorem generate_search_url_query_not_escaped :
  forall field query offset limit,
    _generate_search_url
      (SearchOptions.make field
         (query ++ "?offset=" ++ str_int offset
                ++ "&limit=" ++ str_int limit)
         None None)
    = _generate_search_url
        (SearchOptions.make field query None
           (Some (SearchPaginationOptions.make offset limit))).
Proof.
  intros field query offset limit.
  unfold_url. cbn [SearchOptions.field SearchOptions.query
                   SearchOptions.filter SearchOptions.pagination
                   SearchPaginationOptions.offset
                   SearchPaginationOptions.limit app String.concat].
  now rewrite !append_assoc.
Qed.

Lemma join_comma_collision a b rest :
  join "," ((a ++ "," ++ b) :: rest) = join "," (a :: b :: rest).
Proof.
  unfold join. destruct rest as [| c rest]; cbn [String.concat];
    now rewrite ?append_assoc.
Qed.

(** X4: database names are joined as they are: a name with a comma in it gives
    the very URL of the two names it splits into, although the two filters
    differ. *)
Theorem generate_search_url_database_names_not_escaped :
  forall field query mode a b rest pagination,
    (a ++ "," ++ b) :: rest <> a :: b :: rest
    /\ _generate_search_url
         (SearchOptions.make field query
            (Some (SearchFilterOptions.make mode ((a ++ "," ++ b) :: rest)))
            pagination)
       = _generate_search_url
           (SearchOptions.make field query
              (Some (SearchFilterOptions.make mode (a :: b :: rest)))
              pagination).
Proof.
  intros field query mode a b rest pagination. split.
  - intros H. apply (f_equal (@List.length string)) in H.
    cbn [List.length] in H. lia.
  - unfold _generate_search_url, filter_params.
    cbn [SearchOptions.filter SearchFilterOptions.databases
         SearchFilterOptions.type].
    now rewrite join_comma_collision.
Qed.

(** ** The exchange routine beyond the four classified answers *)

(** X5: A failure of the transport leaves the routine as it is, and no
    decoder runs after it. *)
Theorem request_transport_failure_propagates :
  forall self method url body e,
    HackCheckClient._http self method url body (auth_headers self)
      = Raise e ->
    _request self method url body = Raise e
    /\ forall (T : Type) (decode : json -> result T),
         (resp <- _request self method url body ;; decode resp) = Raise e.
Proof.
  intros self method url body e H.
  assert (Hr : _request self method url body = Raise e)
    by (unfold _request; now rewrite H).
  split; [exact Hr |]. intros T decode. now rewrite Hr.
Qed.

Lemma request_transport_failure_propagates_witness :
  _request (HackCheckClient.make "k" (failing (TransportError "timeout")))
    "GET" "u" None = Raise (TransportError "timeout").
Proof.
  exact (proj1 (request_transport_failure_propagates
                  (HackCheckClient.make "k"
                     (failing (TransportError "timeout")))
                  "GET" "u" None (TransportError "timeout") eq_refl)).
Defined.

(** X6: the outcome of the routine is that of one call of the transport,
    with the method, URL and body it was given and the single header
    [Authorization: Bearer {api_key}].  When that call raises, the routine
    raises the same; when it answers, the outcome is the one of a
    transport that gives this answer to every call; hence two transports
    that answer this call alike give the same outcome, however they differ
    elsewhere. *)
Theorem request_depends_on_one_exchange :
  forall key http method url body,
    (forall e,
        http method url body [("Authorization", "Bearer " ++ key)] = Raise e ->
        _request (HackCheckClient.make key http) method url body = Raise e)
    /\ (forall response,
          http method url body [("Authorization", "Bearer " ++ key)]
            = Ok response ->
          _request (HackCheckClient.make key http) method url body
          = _request (HackCheckClient.make key (answering response))
              method url body)
    /\ (forall http',
          http method url body [("Authorization", "Bearer " ++ key)]
          = http' method url body [("Authorization", "Bearer " ++ key)] ->
          _request (HackCheckClient.make key http) method url body
          = _request (HackCheckClient.make key http') method url body).
Proof.
  intros key http method url body.
  unfold _request, auth_headers, answering.
  cbn [HackCheckClient._http HackCheckClient._api_key].
  split; [| split].
  - intros e H. now rewrite H.
  - intros response H. now rewrite H.
  - intros http' H. now rewrite H.
Qed.

Lemma request_depends_on_one_exchange_witness :
  _request (HackCheckClient.make "k" (token_checking "k" sample_200))
    "POST" "u" None
  = _request (HackCheckClient.make "k" (answering sample_200))
      "POST" "u" None
  /\ _request (HackCheckClient.make "other" (token_checking "k" sample_200))
       "POST" "u" None
     = Raise (TransportError "no token")
  /\ token_checking "k" sample_200 "POST" "u" None []
     <> answering sample_200 "POST" "u" None [].
Proof.
  split; [| split; [| discriminate]].
  - apply (proj1 (proj2 (request_depends_on_one_exchange "k"
                           (token_checking "k" sample_200)
                           "POST" "u" None)) sample_200).
    reflexivity.
  - apply (proj1 (request_depends_on_one_exchange "other"
                    (token_checking "k" sample_200) "POST" "u" None)).
    reflexivity.
Defined.

(** X7: outside the 429 branch the headers of the response are never looked
    at: the outcome is fixed by the status code and the body. *)
Theorem request_ignores_headers_unless_429 :
  forall self method url body response self' method' url' body' response',
    answered self method url body response ->
    answered self' method' url' body' response' ->
    Response.status_code response <> 429 ->
    Response.status_code response' = Response.status_code response ->
    Response.body response' = Response.body response ->
    _request self' method' url' body' = _request self method url body.
Proof.
  intros self method url body response self' method' url' body' response'
         Ha Ha' Hs Hs' Hb.
  rewrite (request_answered _ _ _ _ _ Ha), (request_answered _ _ _ _ _ Ha').
  rewrite Hs'. apply Z.eqb_neq in Hs. rewrite Hs.
  unfold on_401, on_400_404, Response.json. now rewrite Hb.
Qed.

Lemma request_ignores_headers_unless_429_witness :
  Response.headers (Response.make 400 [("X-HackCheck-Limit", "1")]
                      (Response.body sample_400))
    <> Response.headers sample_400
  /\ _request (sample_client
                 (Response.make 400 [("X-HackCheck-Limit", "1")]
                    (Response.body sample_400))) "GET" "u" None
     = _request (sample_client sample_400) "GET" "u" None.
Proof.
  split; [discriminate |].
  apply (request_ignores_headers_unless_429
           (sample_client sample_400) "GET" "u" None sample_400
           (sample_client
              (Response.make 400 [("X-HackCheck-Limit", "1")]
                 (Response.body sample_400))) "GET" "u" None
           (Response.make 400 [("X-HackCheck-Limit", "1")]
              (Response.body sample_400)));
    try reflexivity.
  discriminate.
Defined.

(** *** What a 429 can end in *)

(** X8: A 429 response ends in one of two ways and no other: a
    [RateLimitError] with the values the two headers stand for, or, when a
    header was sent with text that is not an integer, a [ValueError]. *)
Theorem request_429_outcomes :
  forall self method url body response,
    answered self method url body response ->
    Response.status_code response = 429 ->
    (exists limit remaining,
        header_value (Response.headers response) "X-HackCheck-Limit" limit
        /\ header_value (Response.headers response) "X-HackCheck-Remaining"
             remaining
        /\ _request self method url body
             = Raise (RateLimitError limit remaining))
    \/ ((unparseable (Response.headers response) "X-HackCheck-Limit"
         \/ unparseable (Response.headers response) "X-HackCheck-Remaining")
        /\ _request self method url body = Raise ValueError).
Proof.
  intros self method url body response Ha Hs.
  rewrite (request_429 _ _ _ _ _ Ha Hs).
  destruct (header_value_or_unparseable (Response.headers response)
              "X-HackCheck-Limit") as [[limit Hl] | Hl].
  - destruct (header_value_or_unparseable (Response.headers response)
                "X-HackCheck-Remaining") as [[remaining Hr] | Hr].
    + left. exists limit, remaining.
      split; [exact Hl | split; [exact Hr |]].
      now apply on_429_rate_limit.
    + right. split; [now right |]. unfold on_429.
      now rewrite (int_header_value _ _ _ Hl), (int_unparseable _ _ Hr).
  - right. split; [now left |]. unfold on_429.
    now rewrite (int_unparseable _ _ Hl).
Qed.

Lemma request_429_outcomes_witness :
  (unparseable (Response.headers sample_429_bad_remaining)
     "X-HackCheck-Remaining"
   /\ _request (sample_client sample_429_bad_remaining) "GET" "u" None
      = Raise ValueError)
  /\ _request (sample_client sample_429_arabic_indic) "GET" "u" None
     = Raise (RateLimitError 123 0)
  /\ _request (sample_client sample_429_file_separator) "GET" "u" None
     = Raise ValueError.
Proof.
  assert (Hbad : unparseable (Response.headers sample_429_bad_remaining)
                   "X-HackCheck-Remaining").
  { split; [discriminate | intros n; discriminate]. }
  split; [split; [exact Hbad |] | split].
  - destruct (request_429_outcomes (sample_client sample_429_bad_remaining)
                "GET" "u" None sample_429_bad_remaining eq_refl eq_refl)
      as [(limit & remaining & _ & _ & H) | [_ H]].
    + discriminate H.
    + exact H.
  - destruct (request_429_outcomes (sample_client sample_429_arabic_indic)
                "GET" "u" None sample_429_arabic_indic eq_refl eq_refl)
      as [(limit & remaining & _ & _ & H) | [_ H]].
    + rewrite H. vm_compute in H. now injection H as <- <-.
    + discriminate H.
  - destruct (request_429_outcomes (sample_client sample_429_file_separator)
                "GET" "u" None sample_429_file_separator eq_refl eq_refl)
      as [(limit & remaining & _ & _ & H) | [_ H]].
    + discriminate H.
    + exact H.
Defined.

(** *** Error payloads *)

Lemma required_only_mismatch {A : Type} (dec : json -> result A) d key :
  only_mismatch dec -> forall e, required dec d key = Raise e ->
  e = SchemaMismatch.
Proof.
  intros Hdec e. unfold required.
  destruct (dict_get d key) as [j |]; [apply Hdec | now intros [= <-]].
Qed.

Lemma as_str_only_mismatch : only_mismatch as_str.
Proof. intros [] e; cbn; now intros [= <-]. Qed.

Lemma as_int_only_mismatch : only_mismatch as_int.
Proof. intros [] e; cbn; now intros [= <-]. Qed.

Lemma as_bool_only_mismatch : only_mismatch as_bool.
Proof. intros [] e; cbn; now intros [= <-]. Qed.

Lemma from_dict_ErrorResponse_only_mismatch :
  only_mismatch from_dict_ErrorResponse.
Proof.
  intros j e H. unfold from_dict_ErrorResponse in H.
  destruct j; cbn [as_dict bind] in H; try (now injection H as <-).
  destruct (required as_str items "error") eqn:E; cbn [bind] in H;
    [discriminate H |].
  injection H as <-.
  exact (required_only_mismatch _ _ _ as_str_only_mismatch _ E).
Qed.

(** X9: on 401, 400 and 404 the body is read before anything is raised: a body
    that is not JSON ends the call in [JSONDecodeError], and a JSON body
    that is not an error payload ends it in [SchemaMismatch]. *)
Theorem request_unreadable_error_payload :
  forall self method url body response,
    answered self method url body response ->
    Response.status_code response = 401
    \/ Response.status_code response = 400
    \/ Response.status_code response = 404 ->
    (Response.body response = None ->
     _request self method url body = Raise JSONDecodeError)
    /\ (forall j,
          Response.body response = Some j ->
          (forall data, from_dict_ErrorResponse j <> Ok data) ->
          _request self method url body = Raise SchemaMismatch).
Proof.
  intros self method url body response Ha Hs.
  assert (Hbranch :
    _request self method url body = on_401 response
    \/ _request self method url body = on_400_404 response).
  { destruct Hs as [Hs | Hs].
    - left. now apply request_401.
    - right. apply request_400_404; tauto. }
  split.
  - intros Hb.
    destruct Hbranch as [-> | ->]; unfold on_401, on_400_404, Response.json;
      now rewrite Hb.
  - intros j Hb Hbad.
    assert (Hj : from_dict_ErrorResponse j = Raise SchemaMismatch).
    { destruct (from_dict_ErrorResponse j) as [data | e] eqn:E.
      - now contradiction (Hbad data).
      - now rewrite (from_dict_ErrorResponse_only_mismatch _ _ E). }
    destruct Hbranch as [-> | ->]; unfold on_401, on_400_404, Response.json;
      rewrite Hb; cbn [bind]; now rewrite Hj.
Qed.

Lemma request_unreadable_error_payload_witness :
  _request (sample_client sample_401_html) "GET" "u" None
    = Raise JSONDecodeError
  /\ _request (sample_client sample_404_other_shape) "GET" "u" None
     = Raise SchemaMismatch.
Proof.
  split.
  - apply (proj1 (request_unreadable_error_payload
                    (sample_client sample_401_html) "GET" "u" None
                    sample_401_html eq_refl (or_introl eq_refl))).
    reflexivity.
  - apply (proj2 (request_unreadable_error_payload
                    (sample_client sample_404_other_shape) "GET" "u" None
                    sample_404_other_shape eq_refl
                    (or_intror (or_intror eq_refl)))
             (JDict [("message", JStr "Not found.")]));
      [reflexivity | intros data H; discriminate H].
Defined.

(** X10: on 400 and 404 only the [error] key of the body counts: whatever else
    the object holds, the message raised is the string under that key. *)
Theorem request_400_404_message_among_other_keys :
  forall self method url body response d s,
    answered self method url body response ->
    Response.status_code response = 400
    \/ Response.status_code response = 404 ->
    Response.body response = Some (JDict d) ->
    dict_get d "error" = Some (JStr s) ->
    _request self method url body = Raise (Exception s).
Proof.
  intros self method url body response d s Ha Hs Hb Hd.
  rewrite (request_400_404 _ _ _ _ _ Ha Hs).
  unfold on_400_404, Response.json. rewrite Hb. cbn [bind].
  unfold from_dict_ErrorResponse, required. cbn [as_dict bind].
  now rewrite Hd.
Qed.

Lemma request_400_404_message_among_other_keys_witness :
  _request (sample_client sample_400_verbose) "GET" "u" None
    = Raise (Exception "bad field").
Proof.
  apply (request_400_404_message_among_other_keys
           (sample_client sample_400_verbose) "GET" "u" None
           sample_400_verbose
           [("code", JInt 17); ("error", JStr "bad field")] "bad field");
    [reflexivity | left; reflexivity | reflexivity | reflexivity].
Defined.

(** *** Answers the routine has no branch for *)

(** X11: any status other than 401, 429, 400 and 404 counts as success, 5xx
    included.  The routine hands the parsed body back, so that an error
    payload sent with such a status reaches the decoder of [search] and
    ends the search in [SchemaMismatch]; a body that is not JSON ends it
    in [JSONDecodeError]. *)
Theorem search_on_unclassified_status :
  forall self options response,
    answered self "GET" (_generate_search_url options) None response ->
    ~ classified (Response.status_code response) ->
    (forall j, Response.body response = Some j ->
       _request self "GET" (_generate_search_url options) None = Ok j
       /\ search self options = from_dict_SearchResponse j)
    /\ (forall d, Response.body response = Some (JDict d) ->
          dict_get d "databases" = None ->
          search self options = Raise SchemaMismatch)
    /\ (Response.body response = None ->
        search self options = Raise JSONDecodeError).
Proof.
  intros self options response Ha Hc.
  assert (Hr : _request self "GET" (_generate_search_url options) None
               = Response.json response).
  { apply request_other; [exact Ha | | | |]; intros H; apply Hc;
      unfold classified; tauto. }
  unfold search. rewrite Hr. unfold Response.json.
  split; [| split].
  - intros j ->. split; reflexivity.
  - intros d -> Hd. cbn [bind].
    unfold from_dict_SearchResponse, required. cbn [as_dict bind].
    now rewrite Hd.
  - intros ->. reflexivity.
Qed.

Lemma search_on_unclassified_status_witness :
  ~ classified (Response.status_code sample_500)
  /\ search (sample_client sample_500) sample_search
     = Raise SchemaMismatch
  /\ search (sample_client sample_204) sample_search
     = Raise JSONDecodeError.
Proof.
  assert (H500 : ~ classified (Response.status_code sample_500))
    by (intros [H | [H | [H | H]]]; discriminate H).
  assert (H204 : ~ classified (Response.status_code sample_204))
    by (intros [H | [H | [H | H]]]; discriminate H).
  split; [exact H500 | split].
  - apply (proj1 (proj2 (search_on_unclassified_status
                           (sample_client sample_500) sample_search
                           sample_500 eq_refl H500))
             [("error", JStr "Internal error.")]);
      reflexivity.
  - apply (proj2 (proj2 (search_on_unclassified_status
                           (sample_client sample_204) sample_search
                           sample_204 eq_refl H204))).
    reflexivity.
Defined.

(** ** The operations *)

(** X12: no operation catches or rewraps what the exchange routine raises: the
    failure of the request is the failure of the operation. *)
Theorem operations_surface_request_failures :
  forall self e,
    (forall options,
        _request self "GET" (_generate_search_url options) None = Raise e ->
        search self options = Raise e)
    /\ (forall iso,
          _request self "GET" (API_BASE_URL ++ "/monitors") None = Raise e ->
          get_monitors iso self = Raise e)
    /\ (forall iso monitor_id params,
          _request self "PUT"
            (API_BASE_URL ++ "/monitors/asset/" ++ monitor_id)
            (Some (to_dict_UpdateAssetMonitorParams params)) = Raise e ->
          update_asset_monitor iso self monitor_id params = Raise e)
    /\ (forall iso monitor_id params,
          _request self "PUT"
            (API_BASE_URL ++ "/monitors/domain/" ++ monitor_id)
            (Some (to_dict_UpdateDomainMonitorParams params)) = Raise e ->
          update_domain_monitor iso self monitor_id params = Raise e)
    /\ (forall encode options,
          _request self "POST" (API_BASE_URL ++ "/check")
            (Some (encode options)) = Raise e ->
          check encode self options = Raise e).
Proof.
  intros self e. repeat split; intros.
  - unfold search. now rewrite H.
  - unfold get_monitors. now rewrite H.
  - unfold update_asset_monitor. now rewrite H.
  - unfold update_domain_monitor. now rewrite H.
  - unfold check. now rewrite H.
Qed.

Lemma operations_surface_request_failures_witness :
  search (sample_client sample_429) sample_search
    = Raise (RateLimitError 100 0)
  /\ check sample_check_encoding (sample_client (sample_401 "Invalid API key."))
       (CheckOptions.make SearchFieldEmail "check@example.com")
     = Raise (InvalidAPIKeyError "The provided API key is invalid.").
Proof.
  split.
  - apply (proj1 (operations_surface_request_failures
                    (sample_client sample_429) (RateLimitError 100 0))).
    reflexivity.
  - apply (proj2 (proj2 (proj2 (proj2
             (operations_surface_request_failures
                (sample_client (sample_401 "Invalid API key."))
                (InvalidAPIKeyError "The provided API key is invalid.")))))).
    reflexivity.
Defined.

(** X13: [check] posts to [{base}/check] and returns the [found] flag of the
    answer, whatever JSON the options were encoded to; an answer whose
    [found] is missing or is not a boolean ends in [SchemaMismatch]. *)
Theorem check_returns_found :
  forall encode self options response d,
    answered self "POST" (API_BASE_URL ++ "/check")
      (Some (encode options)) response ->
    ~ classified (Response.status_code response) ->
    Response.body response = Some (JDict d) ->
    (forall b, dict_get d "found" = Some (JBool b) ->
       check encode self options = Ok b)
    /\ ((forall b, dict_get d "found" <> Some (JBool b)) ->
        check encode self options = Raise SchemaMismatch).
Proof.
  intros encode self options response d Ha Hc Hb.
  assert (Hr : _request self "POST" (API_BASE_URL ++ "/check")
                 (Some (encode options)) = Ok (JDict d)).
  { rewrite (request_other _ _ _ _ _ Ha).
    - unfold Response.json. now rewrite Hb.
    - intros H; apply Hc; unfold classified; tauto.
    - intros H; apply Hc; unfold classified; tauto.
    - intros H; apply Hc; unfold classified; tauto.
    - intros H; apply Hc; unfold classified; tauto. }
  unfold check. rewrite Hr. cbn [bind].
  unfold from_dict_CheckResponse, required. cbn [as_dict bind].
  split.
  - intros b ->. reflexivity.
  - intros Hbad.
    destruct (dict_get d "found") as [[| b | | | | |] |]; try reflexivity.
    now contradiction (Hbad b).
Qed.

Lemma check_returns_found_witness :
  check sample_check_encoding (sample_client sample_200)
    (CheckOptions.make SearchFieldEmail "check@example.com") = Ok true
  /\ check sample_check_encoding (sample_client sample_500)
       (CheckOptions.make SearchFieldEmail "check@example.com")
     = Raise SchemaMismatch.
Proof.
  assert (H200 : ~ classified (Response.status_code sample_200))
    by (intros [H | [H | [H | H]]]; discriminate H).
  assert (H500 : ~ classified (Response.status_code sample_500))
    by (intros [H | [H | [H | H]]]; discriminate H).
  split.
  - apply (proj1 (check_returns_found sample_check_encoding
                    (sample_client sample_200)
                    (CheckOptions.make SearchFieldEmail "check@example.com")
                    sample_200 [("found", JBool true)]
                    eq_refl H200 eq_refl)).
    reflexivity.
  - apply (proj2 (check_returns_found sample_check_encoding
                    (sample_client sample_500)
                    (CheckOptions.make SearchFieldEmail "check@example.com")
                    sample_500 [("error", JStr "Internal error.")]
                    eq_refl H500 eq_refl)).
    intros b H. discriminate H.
Defined.

(** X14: an answer to [get_monitors] with two empty arrays is two empty lists
    and not a failure, whatever else the object holds. *)
Theorem get_monitors_empty :
  forall iso self response d,
    answered self "GET" (API_BASE_URL ++ "/monitors") None response ->
    ~ classified (Response.status_code response) ->
    Response.body response = Some (JDict d) ->
    dict_get d "asset_monitors" = Some (JList []) ->
    dict_get d "domain_monitors" = Some (JList []) ->
    get_monitors iso self = Ok (GetMonitorsResponse.make [] []).
Proof.
  intros iso self response d Ha Hc Hb Hass Hdom.
  unfold get_monitors.
  rewrite (request_other _ _ _ _ _ Ha);
    try (intros H; apply Hc; unfold classified; tauto).
  unfold Response.json. rewrite Hb. cbn [bind].
  unfold from_dict_GetMonitorsResponse, required. cbn [as_dict bind].
  now rewrite Hass, Hdom.
Qed.

Lemma get_monitors_empty_witness :
  get_monitors sample_fromisoformat (sample_client sample_monitors_empty)
    = Ok (GetMonitorsResponse.make [] []).
Proof.
  apply (get_monitors_empty sample_fromisoformat
           (sample_client sample_monitors_empty) sample_monitors_empty
           [("asset_monitors", JList []); ("domain_monitors", JList [])]);
    try reflexivity.
  intros [H | [H | [H | H]]]; discriminate H.
Defined.

(** ** Decoding a search response *)

Lemma mapM_Ok_Forall2 {A B : Type} (f : A -> result B) l r :
  mapM f l = Ok r <-> Forall2 (fun a b => f a = Ok b) l r.
Proof.
  revert r. induction l as [| a l IH]; intros r; cbn [mapM].
  - split.
    + intros [= <-]. constructor.
    + intros H. inversion H. reflexivity.
  - split.
    + destruct (f a) as [b | e] eqn:Ea; cbn [bind]; [| discriminate].
      destruct (mapM f l) as [bs | e] eqn:El; cbn [bind]; [| discriminate].
      intros [= <-]. constructor; [exact Ea | now apply IH].
    + intros H. inversion H as [| a' b l' bs Ha Hl]; subst.
      rewrite Ha. cbn [bind].
      apply IH in Hl. rewrite Hl. reflexivity.
Qed.

Lemma mapM_only_mismatch {A B : Type} (f : A -> result B) :
  (forall a e, f a = Raise e -> e = SchemaMismatch) ->
  forall l e, mapM f l = Raise e -> e = SchemaMismatch.
Proof.
  intros Hf l. induction l as [| a l IH]; intros e; cbn [mapM].
  - discriminate.
  - destruct (f a) as [b | e'] eqn:Ea; cbn [bind].
    + destruct (mapM f l) as [bs | e'] eqn:El; cbn [bind]; [discriminate |].
      intros [= <-]. now apply IH.
    + intros [= <-]. now apply (Hf a).
Qed.

Lemma as_list_only_mismatch {A : Type} (dec : json -> result A) :
  only_mismatch dec -> only_mismatch (as_list dec).
Proof.
  intros Hdec j e. destruct j; cbn [as_list]; try (now intros [= <-]).
  now apply mapM_only_mismatch.
Qed.

Lemma optional_only_mismatch {A : Type} (dec : json -> result A) d key :
  only_mismatch dec -> forall e, optional dec d key = Raise e ->
  e = SchemaMismatch.
Proof.
  intros Hdec e. unfold optional.
  destruct (dict_get d key) as [j |]; [| discriminate].
  destruct (dec j) as [a | e'] eqn:E;
    destruct j; cbn [bind]; try discriminate;
    intros [= <-]; now apply (Hdec _ _ E).
Qed.

Create HintDb mismatch.
#[local] Hint Resolve as_str_only_mismatch as_int_only_mismatch
  as_bool_only_mismatch as_list_only_mismatch : mismatch.

(** Runs through the binds of a decoder whose failure [H] reports. *)
Ltac decoder_failure H :=
  repeat match type of H with
    | context [bind ?m _] =>
        let E := fresh "E" in
        destruct m eqn:E; cbn [bind] in H;
        [| injection H as <-;
           first [ eapply required_only_mismatch; [| exact E]
                 | eapply optional_only_mismatch; [| exact E] ];
           auto with mismatch ]
    end;
  try discriminate H.

Ltac only_mismatch_proof :=
  let j := fresh "j" in
  let e := fresh "e" in
  let H := fresh "H" in
  intros j e H; destruct j; cbn [as_dict bind] in H;
  try (now injection H as <-); decoder_failure H.

Lemma from_dict_Source_only_mismatch : only_mismatch from_dict_Source.
Proof. unfold from_dict_Source. only_mismatch_proof. Qed.

#[local] Hint Resolve from_dict_Source_only_mismatch : mismatch.

Lemma from_dict_SearchResult_only_mismatch :
  only_mismatch from_dict_SearchResult.
Proof. unfold from_dict_SearchResult. only_mismatch_proof. Qed.

Lemma from_dict_PaginationData_only_mismatch :
  only_mismatch from_dict_PaginationData.
Proof. unfold from_dict_PaginationData. only_mismatch_proof. Qed.

#[local] Hint Resolve from_dict_SearchResult_only_mismatch
  from_dict_PaginationData_only_mismatch : mismatch.

Lemma from_dict_SearchResponsePagination_only_mismatch :
  only_mismatch from_dict_SearchResponsePagination.
Proof. unfold from_dict_SearchResponsePagination. only_mismatch_proof. Qed.

#[local] Hint Resolve from_dict_SearchResponsePagination_only_mismatch
  : mismatch.

Lemma from_dict_SearchResponse_only_mismatch :
  only_mismatch from_dict_SearchResponse.
Proof. unfold from_dict_SearchResponse. only_mismatch_proof. Qed.

Lemma required_missing_or_null {A : Type} (dec : json -> result A) d key :
  dec JNull = Raise SchemaMismatch ->
  missing_or_null d key ->
  required dec d key = Raise SchemaMismatch.
Proof.
  intros Hnull [H | H]; unfold required; rewrite H; [reflexivity | exact Hnull].
Qed.

(** X15: the four fields of a search response declared without [Optional] are
    required: when one of them is missing, or is [null], decoding fails,
    and [SchemaMismatch] is the only failure decoding has. *)
Theorem search_response_required_fields :
  (forall d key,
      In key ["databases"; "results"; "first_seen"; "last_seen"] ->
      missing_or_null d key ->
      from_dict_SearchResponse (JDict d) = Raise SchemaMismatch)
  /\ only_mismatch from_dict_SearchResponse.
Proof.
  split; [| exact from_dict_SearchResponse_only_mismatch].
  intros d key Hkey Hmiss.
  destruct (from_dict_SearchResponse (JDict d)) as [v | e] eqn:H.
  - exfalso. unfold from_dict_SearchResponse in H. cbn [as_dict bind] in H.
    repeat step_bind H.
    cbn [In] in Hkey.
    destruct Hkey as [<- | [<- | [<- | [<- | []]]]];
      match goal with
      | E : required ?dec d ?k = Ok _, Hm : missing_or_null d ?k |- _ =>
          rewrite (required_missing_or_null dec d k eq_refl Hm) in E;
          discriminate E
      end.
  - now rewrite (from_dict_SearchResponse_only_mismatch _ _ H).
Qed.

Lemma search_response_required_fields_witness :
  In "results" ["databases"; "results"; "first_seen"; "last_seen"]
  /\ missing_or_null
       [("databases", JInt 0); ("results", JNull);
        ("first_seen", JStr ""); ("last_seen", JStr "")] "results"
  /\ from_dict_SearchResponse
       (JDict [("databases", JInt 0); ("results", JNull);
               ("first_seen", JStr ""); ("last_seen", JStr "")])
     = Raise SchemaMismatch.
Proof.
  assert (Hin : In "results"
                  ["databases"; "results"; "first_seen"; "last_seen"])
    by (right; left; reflexivity).
  assert (Hnull : missing_or_null
                    [("databases", JInt 0); ("results", JNull);
                     ("first_seen", JStr ""); ("last_seen", JStr "")]
                    "results")
    by (right; reflexivity).
  split; [exact Hin | split; [exact Hnull |]].
  exact (proj1 search_response_required_fields _ "results" Hin Hnull).
Defined.

(** X16: when [results] is a JSON array, the records of a decoded search
    response are the items of the array decoded one by one, in the order
    of the array and as many as there are; one item of the array that is
    not a record makes the whole response fail. *)
Theorem search_response_results_in_order :
  (forall d v items,
      from_dict_SearchResponse (JDict d) = Ok v ->
      dict_get d "results" = Some (JList items) ->
      Forall2 (fun j r => from_dict_SearchResult j = Ok r)
        items (SearchResponse.results v)
      /\ List.length (SearchResponse.results v) = List.length items)
  /\ (forall d items j,
        dict_get d "results" = Some (JList items) ->
        In j items ->
        (forall r, from_dict_SearchResult j <> Ok r) ->
        from_dict_SearchResponse (JDict d) = Raise SchemaMismatch).
Proof.
  assert (Hfirst : forall d v items,
      from_dict_SearchResponse (JDict d) = Ok v ->
      dict_get d "results" = Some (JList items) ->
      Forall2 (fun j r => from_dict_SearchResult j = Ok r)
        items (SearchResponse.results v)).
  { intros d v items H Hget.
    unfold from_dict_SearchResponse in H. cbn [as_dict bind] in H.
    repeat step_bind H. injection H as <-.
    cbn [SearchResponse.results].
    match goal with
    | E : required (as_list from_dict_SearchResult) d "results" = Ok _ |- _ =>
        unfold required in E; rewrite Hget in E; cbn [as_list] in E;
        now apply mapM_Ok_Forall2
    end. }
  split.
  - intros d v items H Hget.
    pose proof (Hfirst d v items H Hget) as Hall.
    split; [exact Hall |]. symmetry. exact (Forall2_length Hall).
  - intros d items j Hget Hin Hbad.
    destruct (from_dict_SearchResponse (JDict d)) as [v | e] eqn:H.
    + exfalso. pose proof (Hfirst d v items H Hget) as Hall.
      clear - Hin Hbad Hall.
      induction Hall as [| a b l l' Hab Hall IH]; [contradiction |].
      destruct Hin as [-> | Hin]; [now apply (Hbad b) | now apply IH].
    + now rewrite (from_dict_SearchResponse_only_mismatch _ _ H).
Qed.

Lemma search_response_results_in_order_witness :
  (from_dict_SearchResponse
     (JDict (sample_search_response_of
               [sample_result_of "b@x.org"; sample_result_of "a@x.org";
                sample_result_of "c@x.org"]))
   = Ok (SearchResponse.make 1
           [sample_record_of "b@x.org"; sample_record_of "a@x.org";
            sample_record_of "c@x.org"]
           None "2019-03-01" "2019-03-01")
   /\ Forall2 (fun j r => from_dict_SearchResult j = Ok r)
        [sample_result_of "b@x.org"; sample_result_of "a@x.org";
         sample_result_of "c@x.org"]
        [sample_record_of "b@x.org"; sample_record_of "a@x.org";
         sample_record_of "c@x.org"])
  /\ from_dict_SearchResponse
       (JDict (sample_search_response_of
                 [sample_result_of "b@x.org"; JStr "a@x.org";
                  sample_result_of "c@x.org"]))
     = Raise SchemaMismatch.
Proof.
  split; [split; [reflexivity |] |].
  - exact (proj1 (proj1 search_response_results_in_order
                    (sample_search_response_of
                       [sample_result_of "b@x.org"; sample_result_of "a@x.org";
                        sample_result_of "c@x.org"])
                    (SearchResponse.make 1
                       [sample_record_of "b@x.org"; sample_record_of "a@x.org";
                        sample_record_of "c@x.org"]
                       None "2019-03-01" "2019-03-01")
                    [sample_result_of "b@x.org"; sample_result_of "a@x.org";
                     sample_result_of "c@x.org"]
                    eq_refl eq_refl)).
  - apply (proj2 search_response_results_in_order
             (sample_search_response_of
                [sample_result_of "b@x.org"; JStr "a@x.org";
                 sample_result_of "c@x.org"])
             [sample_result_of "b@x.org"; JStr "a@x.org";
              sample_result_of "c@x.org"]
             (JStr "a@x.org")).
    + reflexivity.
    + right. left. reflexivity.
    + intros r H. discriminate H.
Defined.

(** ** Decoding a monitor *)

Lemma as_datetime_only_mismatch iso : only_mismatch (as_datetime iso).
Proof.
  intros j e. unfold as_datetime.
  destruct (as_str j) as [s | e'] eqn:E; cbn [bind].
  - destruct (iso s); [discriminate | now intros [= <-]].
  - intros [= <-]. exact (as_str_only_mismatch _ _ E).
Qed.

#[local] Hint Resolve as_datetime_only_mismatch : mismatch.

Lemma from_dict_AssetMonitor_only_mismatch iso :
  only_mismatch (from_dict_AssetMonitor iso).
Proof. unfold from_dict_AssetMonitor. only_mismatch_proof. Qed.

Lemma from_dict_DomainMonitor_only_mismatch iso :
  only_mismatch (from_dict_DomainMonitor iso).
Proof. unfold from_dict_DomainMonitor. only_mismatch_proof. Qed.

(** Closes the case of a required key that is missing or [null] although
    its field was decoded. *)
Ltac required_contradiction d :=
  match goal with
  | E : required ?dec d ?k = Ok _, Hm : missing_or_null d ?k |- _ =>
      rewrite (required_missing_or_null dec d k eq_refl Hm) in E;
      discriminate E
  end.

(** X17: no field of a monitor is optional: an [AssetMonitor] answer needs all
    of its eight keys and a [DomainMonitor] answer all of its seven,
    [expires_soon] among them, and a key that is missing or [null] makes
    decoding fail. *)
Theorem monitor_required_fields :
  forall iso d key,
    missing_or_null d key ->
    (In key ["id"; "status"; "type"; "asset"; "notification_email";
             "expires_soon"; "created_at"; "ends_at"] ->
     from_dict_AssetMonitor iso (JDict d) = Raise SchemaMismatch)
    /\ (In key ["id"; "status"; "domain"; "notification_email";
                "expires_soon"; "created_at"; "ends_at"] ->
        from_dict_DomainMonitor iso (JDict d) = Raise SchemaMismatch).
Proof.
  intros iso d key Hmiss. split; intros Hkey.
  - destruct (from_dict_AssetMonitor iso (JDict d)) as [v | e] eqn:H.
    + exfalso. unfold from_dict_AssetMonitor in H. cbn [as_dict bind] in H.
      repeat step_bind H. cbn [In] in Hkey.
      destruct Hkey
        as [<- | [<- | [<- | [<- | [<- | [<- | [<- | [<- | []]]]]]]]];
        required_contradiction d.
    + now rewrite (from_dict_AssetMonitor_only_mismatch iso _ _ H).
  - destruct (from_dict_DomainMonitor iso (JDict d)) as [v | e] eqn:H.
    + exfalso. unfold from_dict_DomainMonitor in H. cbn [as_dict bind] in H.
      repeat step_bind H. cbn [In] in Hkey.
      destruct Hkey as [<- | [<- | [<- | [<- | [<- | [<- | [<- | []]]]]]]];
        required_contradiction d.
    + now rewrite (from_dict_DomainMonitor_only_mismatch iso _ _ H).
Qed.

Lemma monitor_required_fields_witness :
  missing_or_null
    [("id", JStr "m-1"); ("status", JInt 0); ("domain", JStr "example.org");
     ("notification_email", JStr "n@x.com");
     ("created_at", JStr "2024-01-01T00:00:00");
     ("ends_at", JStr "2025-01-01T00:00:00")] "expires_soon"
  /\ from_dict_DomainMonitor sample_fromisoformat
       (JDict [("id", JStr "m-1"); ("status", JInt 0);
               ("domain", JStr "example.org");
               ("notification_email", JStr "n@x.com");
               ("created_at", JStr "2024-01-01T00:00:00");
               ("ends_at", JStr "2025-01-01T00:00:00")])
     = Raise SchemaMismatch.
Proof.
  assert (Hmiss : missing_or_null
    [("id", JStr "m-1"); ("status", JInt 0); ("domain", JStr "example.org");
     ("notification_email", JStr "n@x.com");
     ("created_at", JStr "2024-01-01T00:00:00");
     ("ends_at", JStr "2025-01-01T00:00:00")] "expires_soon")
    by (left; reflexivity).
  split; [exact Hmiss |].
  apply (proj2 (monitor_required_fields sample_fromisoformat _
                  "expires_soon" Hmiss)).
  cbn [In]. tauto.
Defined.
